(** * whatsapp-mcp-server: the MCP tools of [main.py]

    A shallow embedding of the tools of [whatsapp-mcp-server/main.py] that
    carry logic of their own: [get_list_chats] and [show_all_lists] (the
    keyword list classifier), [send_message] and [download_media].

    - Python [str] is [string]: a sequence of characters, one [ascii] per
      character.  The two non-ASCII literals of the source are spelled out
      as the bytes the source file holds.
    - [str.lower] and [repr] are Python builtins; the tools are defined in
      a section that takes them as variables, and [ascii_lower] and
      [plain_repr] instantiate them for evaluation.
    - The SQLite store, the configuration file and the transport client are
      the world a tool runs in; a tool is a computation that reads the
      world, logs every access as an event and either returns a value or
      raises an exception. *)

From Stdlib Require Import ZArith List String Ascii Bool Lia.
From Stdlib Require Import Sorting.Sorted Permutation DecimalString.
From stdpp Require Import gmap strings.
Import ListNotations.

Local Open Scope list_scope.

(** ** Python strings *)

Module PyStr.

(** ["\n"] *)
Definition nl : string := String (ascii_of_nat 10) EmptyString.

Definition of_bytes (l : list nat) : string :=
  string_of_list_ascii (List.map ascii_of_nat l).

(** [sub in s] on two strings: [sub] occurs somewhere in [s]. *)
Fixpoint str_in (sub s : string) : bool :=
  String.prefix sub s ||
  match s with
  | EmptyString => false
  | String _ s' => str_in sub s'
  end.

(** [sep.join(l)] *)
Definition join (sep : string) (l : list string) : string :=
  String.concat sep l.

(** [s[:n]] for a non-negative [n]. *)
Definition slice_to (n : nat) (s : string) : string := String.substring 0 n s.

(** [len(s)] *)
Definition len (s : string) : nat := String.length s.

(** [str(n)] for a non-negative [int]. *)
Definition str_of_nat (n : nat) : string :=
  NilZero.string_of_uint (Nat.to_uint n).

(** [str(z)] for an [int]. *)
Definition str_of_Z (z : Z) : string :=
  NilZero.string_of_int (Z.to_int z).

(** [bool(s)]: a string is truthy when it is not empty. *)
Definition truthy (s : string) : bool :=
  match s with
  | EmptyString => false
  | String _ _ => true
  end.

(** [bool(o)] for an [Optional[str]]: [None] and [""] are falsy. *)
Definition truthy_opt (o : option string) : bool :=
  match o with
  | None => false
  | Some s => truthy s
  end.

(** [o or ""] for an [Optional[str]]. *)
Definition or_empty (o : option string) : string :=
  match o with
  | None => ""
  | Some s => if truthy s then s else ""
  end.

(** [str(o)] / [f"{o}"] for an [Optional[str]]. *)
Definition format_opt (o : option string) : string :=
  match o with
  | None => "None"
  | Some s => s
  end.

(** [s.lower()] on ASCII text: [A-Z] become [a-z]. *)
Definition ascii_lower_char (c : ascii) : ascii :=
  let n := nat_of_ascii c in
  if (65 <=? n)%nat && (n <=? 90)%nat then ascii_of_nat (n + 32) else c.

Fixpoint ascii_lower (s : string) : string :=
  match s with
  | EmptyString => EmptyString
  | String c s' => String (ascii_lower_char c) (ascii_lower s')
  end.

(** [repr(s)] for a string of printable characters without quotes or
    backslashes. *)
Definition plain_repr (s : string) : string := "'" +:+ s +:+ "'".

(** The propositional reading of [sub in s]. *)
Definition occurs_in (sub s : string) : Prop :=
  exists pre post : string, s = pre +:+ sub +:+ post.

End PyStr.

(** ** The SQLite store

    [messages.db] as [get_list_chats] reads it: the [chats] table and the
    columns of [messages] that the query touches.  A value of a [TEXT]
    column is a string or [NULL]; a [TIMESTAMP] column holds [NULL], an
    integer or a text (storage classes [REAL] and [BLOB] are left out). *)

Module Sqlite.

Inductive value : Type :=
| Null
| Integer (z : Z)
| Text (s : string).

(** [a <= b] in the order [ORDER BY] sorts by: [NULL] first, then
    numbers, then texts compared byte by byte. *)
Definition leb (a b : value) : bool :=
  match a, b with
  | Null, _ => true
  | Integer _, Null => false
  | Integer x, Integer y => Z.leb x y
  | Integer _, Text _ => true
  | Text _, Null => false
  | Text _, Integer _ => false
  | Text s, Text t => String.leb s t
  end.

(** [a = b] in a condition: it holds for equal values that are not
    [NULL]. *)
Definition eqb (a b : value) : bool :=
  match a, b with
  | Integer x, Integer y => Z.eqb x y
  | Text s, Text t => String.eqb s t
  | _, _ => false
  end.

Record chat : Type := {
  c_jid : string;
  c_name : option string;
  c_last_message_time : value
}.

Record message : Type := {
  m_chat_jid : string;
  m_timestamp : value;
  m_content : option string
}.

Record database : Type := {
  chats : list chat;
  messages : list message
}.

(** A fetched row [(jid, name, last_message_time, last_message)]. *)
Definition row : Type := (string * option string * value * option string)%type.

Definition row_time (r : row) : value := let '(_, _, t, _) := r in t.
Definition row_name (r : row) : option string := let '(_, n, _, _) := r in n.

(** [ON c.jid = m.chat_jid AND c.last_message_time = m.timestamp] *)
Definition on_last_message (c : chat) (m : message) : bool :=
  String.eqb (c_jid c) (m_chat_jid m) && eqb (c_last_message_time c) (m_timestamp m).

(** [FROM chats c LEFT JOIN messages m ON ...]: a chat without a joined
    message is kept once, with no message. *)
Definition left_join (db : database) : list (chat * option message) :=
  List.flat_map
    (fun c =>
       match List.filter (on_last_message c) (messages db) with
       | [] => [(c, None)]
       | ms => List.map (fun m => (c, Some m)) ms
       end)
    (chats db).

(** [WHERE c.name != '']: a [NULL] name makes the condition [NULL], and
    the row is dropped. *)
Definition where_named (cm : chat * option message) : bool :=
  match c_name (fst cm) with
  | None => false
  | Some s => negb (String.eqb s "")
  end.

(** [SELECT c.jid, c.name, c.last_message_time, m.content as last_message] *)
Definition select (cm : chat * option message) : row :=
  let (c, m) := cm in
  (c_jid c, c_name c, c_last_message_time c,
   match m with
   | None => None
   | Some m => m_content m
   end).

(** [ORDER BY c.last_message_time DESC], as a stable insertion sort (SQL
    leaves the order of rows with equal keys open). *)
Fixpoint insert_desc (r : row) (l : list row) : list row :=
  match l with
  | [] => [r]
  | x :: l' =>
      if leb (row_time x) (row_time r) then r :: l
      else x :: insert_desc r l'
  end.

Definition order_by_time_desc (l : list row) : list row :=
  List.fold_right insert_desc [] l.

(** The query of [get_list_chats]. *)
Definition named_chats (db : database) : list row :=
  order_by_time_desc (List.map select (List.filter where_named (left_join db))).

Definition time_desc (a b : row) : Prop :=
  leb (row_time b) (row_time a) = true.

End Sqlite.

(** ** The world of a tool call, and computations over it *)

(** The JSON object of [chat_lists.json]: labels with their keywords, in
    the order of the file. *)
Definition chat_lists : Type := list (string * list string).

Inductive exception : Type :=
| JSONDecodeError (msg : string)
| OSError (msg : string)
| KeyError (key : string).

Inductive outcome (A : Type) : Type :=
| Returns (a : A)
| Raises (e : exception).

Arguments Returns {A} a.
Arguments Raises {A} e.

(** What [_load_chat_lists] finds at [CHAT_LISTS_PATH].  [Holds lists]: the
    file parses to a JSON object whose values are lists of strings; a
    file that parses to JSON of another shape is not covered. *)
Inductive config_file : Type :=
| Absent
| Holds (lists : chat_lists)
| Unreadable (e : exception).

Record World : Type := {
  CHAT_LISTS_PATH : string;
  chat_lists_json : config_file;
  (** [inl msg]: opening or querying the store raises [sqlite3.Error(msg)] *)
  messages_db : string + Sqlite.database;
  whatsapp_send_message : string -> string -> bool * string;
  whatsapp_download_media : string -> string -> option string
}.

Inductive event : Type :=
| LoadChatLists
| StoreRead
| TransportSend (recipient message : string)
| TransportDownload (message_id chat_jid : string).

Definition is_store_read (e : event) : bool :=
  match e with
  | StoreRead => true
  | _ => false
  end.

Definition is_load (e : event) : bool :=
  match e with
  | LoadChatLists => true
  | _ => false
  end.

Definition count_events (p : event -> bool) (t : list event) : nat :=
  List.length (List.filter p t).

(** A computation reads the world and yields an outcome and the events it
    performed, in order. *)
Definition M (A : Type) : Type := World -> outcome A * list event.

Definition ret {A : Type} (a : A) : M A := fun _ => (Returns a, []).

Definition bind {A B : Type} (m : M A) (k : A -> M B) : M B :=
  fun w =>
    match m w with
    | (Returns a, t) => let (r, t') := k a w in (r, t ++ t')
    | (Raises e, t) => (Raises e, t)
    end.

Notation "x <- m ;; k" := (bind m (fun x => k))
  (at level 100, m at next level, k at level 200, right associativity).

Definition reply {A : Type} (m : M A) (w : World) : outcome A := fst (m w).
Definition trace {A : Type} (m : M A) (w : World) : list event := snd (m w).

(** ** Values of the result dictionaries *)

Inductive pyval : Type :=
| PyBool (b : bool)
| PyStr (s : string).

(** ** Dictionaries in insertion order *)

(** [lists.keys()] *)
Definition dict_keys (lists : chat_lists) : list string := List.map fst lists.

(** [lists[key]] *)
Fixpoint dict_getitem (lists : chat_lists) (key : string) : outcome (list string) :=
  match lists with
  | [] => Raises (KeyError key)
  | (k, v) :: rest => if String.eqb k key then Returns v else dict_getitem rest key
  end.

(** [bool(lists)] *)
Definition dict_truthy (lists : chat_lists) : bool :=
  match lists with
  | [] => false
  | _ :: _ => true
  end.

(** The keys of a dictionary are distinct. *)
Definition dict_wf (lists : chat_lists) : Prop := List.NoDup (dict_keys lists).

(** ** The tools of [main.py] *)

(** [_load_chat_lists]: [{}] when the file is absent, else its content. *)
Definition _load_chat_lists : M chat_lists :=
  fun w =>
    (match chat_lists_json w with
     | Absent => Returns []
     | Holds lists => Returns lists
     | Unreadable e => Raises e
     end,
     [LoadChatLists]).

(** The [try] block of [get_list_chats]: connect, run the query, fetch all
    rows; [inl e] when [sqlite3.Error] is caught. *)
Definition fetch_named_chats : M (string + list Sqlite.row) :=
  fun w =>
    (Returns match messages_db w with
             | inl e => inl e
             | inr db => inr (Sqlite.named_chats db)
             end,
     [StoreRead]).

(** [whatsapp_send_message(recipient, message)] *)
Definition call_send_message (recipient message : string) : M (bool * string) :=
  fun w => (Returns (whatsapp_send_message w recipient message),
            [TransportSend recipient message]).

(** [whatsapp_download_media(message_id, chat_jid)] *)
Definition call_download_media (message_id chat_jid : string) : M (option string) :=
  fun w => (Returns (whatsapp_download_media w message_id chat_jid),
            [TransportDownload message_id chat_jid]).

Definition get_path : M string := fun w => (Returns (CHAT_LISTS_PATH w), []).

Definition lift {A : Type} (o : outcome A) : M A := fun _ => (o, []).

(** The two non-ASCII literals of the source, as the bytes of the file. *)
Definition clipboard_mark : string :=
  Eval cbv in PyStr.of_bytes [195; 176; 197; 184; 226; 128; 156; 226; 128; 185].

Definition bullet_mark : string :=
  Eval cbv in PyStr.of_bytes [195; 162; 226; 130; 172; 194; 162].

Definition no_lists_defined : string :=
  "No lists defined. Edit chat_lists.json in the whatsapp-mcp-server folder to create your lists.".

(** The character budget of a preview. *)
Definition preview_budget : nat := 60.

(** [(last_msg[:60] + "...") if last_msg and len(last_msg) > 60 else (last_msg or "")] *)
Definition preview (last_msg : option string) : string :=
  match last_msg with
  | Some s =>
      if PyStr.truthy s && (preview_budget <? PyStr.len s)%nat
      then PyStr.slice_to preview_budget s +:+ "..."
      else PyStr.or_empty last_msg
  | None => PyStr.or_empty last_msg
  end.

(** [str(last_time)] *)
Definition format_value (v : Sqlite.value) : string :=
  match v with
  | Sqlite.Null => "None"
  | Sqlite.Integer z => PyStr.str_of_Z z
  | Sqlite.Text s => s
  end.

(** The line appended for one match. *)
Definition entry (r : Sqlite.row) : string :=
  let '(jid, name, last_time, last_msg) := r in
  bullet_mark +:+ " " +:+ PyStr.format_opt name +:+ "  [" +:+ format_value last_time
    +:+ "]" +:+ PyStr.nl +:+ "  " +:+ preview last_msg.

Definition not_found (list_name : string) (lists : chat_lists) : string :=
  let available := PyStr.join ", " (dict_keys lists) in
  "List '" +:+ list_name +:+ "' not found. Available lists: " +:+ available.

Definition listing (matched_key : string) (matches : list Sqlite.row) : string :=
  let lines :=
    [clipboard_mark +:+ " " +:+ matched_key +:+ " ("
       +:+ PyStr.str_of_nat (List.length matches) +:+ " chats)" +:+ PyStr.nl]
    ++ List.map entry matches in
  PyStr.join PyStr.nl lines.

Definition database_error (e : string) : string := "Database error: " +:+ e.

Section Tools.

(** [str.lower] and [repr] on [str]. *)
Variable lower : string -> string.
Variable repr : string -> string.

(** [f"{keywords}"]: the [repr] of a list of strings. *)
Definition format_list (keywords : list string) : string :=
  "[" +:+ PyStr.join ", " (List.map repr keywords) +:+ "]".

(** [next((k for k in lists if k.lower() == list_name.lower()), None)] *)
Definition next_matching_key (lists : chat_lists) (list_name : string) : option string :=
  List.find (fun k => String.eqb (lower k) (lower list_name)) (dict_keys lists).

(** [any(kw.lower() in (name or '').lower() for kw in keywords)] *)
Definition any_keyword_in (keywords : list string) (name : option string) : bool :=
  List.existsb (fun kw => PyStr.str_in (lower kw) (lower (PyStr.or_empty name))) keywords.

(** The list comprehension [matches]. *)
Definition select_matches (keywords : list string) (all_chats : list Sqlite.row)
  : list Sqlite.row :=
  List.filter (fun r => any_keyword_in keywords (Sqlite.row_name r)) all_chats.

Definition no_chats_found (matched_key : string) (keywords : list string) : string :=
  "No chats found for list '" +:+ matched_key +:+ "' with keywords: "
    +:+ format_list keywords +:+ PyStr.nl
    +:+ "Try editing chat_lists.json to adjust the keywords.".

(** [if not matched_key] takes the branch of [None] and of the empty
    label alike; [if not matches] that of the empty list. *)
Definition get_list_chats (list_name : string) : M string :=
  lists <- _load_chat_lists ;;
  if negb (dict_truthy lists) then ret no_lists_defined
  else
    let matched_key := next_matching_key lists list_name in
    match matched_key with
    | None => ret (not_found list_name lists)
    | Some matched_key =>
        if negb (PyStr.truthy matched_key) then ret (not_found list_name lists)
        else
          keywords <- lift (dict_getitem lists matched_key) ;;
          fetched <- fetch_named_chats ;;
          match fetched with
          | inl e => ret (database_error e)
          | inr all_chats =>
              let matches := select_matches keywords all_chats in
              match matches with
              | [] => ret (no_chats_found matched_key keywords)
              | _ :: _ => ret (listing matched_key matches)
              end
          end
    end.

Definition show_all_lists : M string :=
  lists <- _load_chat_lists ;;
  if negb (dict_truthy lists) then ret no_lists_defined
  else
    path <- get_path ;;
    let lines :=
      [clipboard_mark +:+ " Your Custom Chat Lists" +:+ PyStr.nl]
      ++ List.map (fun '(list_name, keywords) =>
                     bullet_mark +:+ " " +:+ list_name +:+ ": "
                       +:+ PyStr.join ", " keywords)
                  lists
      ++ [PyStr.nl +:+ "Edit: " +:+ path] in
    ret (PyStr.join PyStr.nl lines).

End Tools.

Definition send_message (recipient message : string) : M (gmap string pyval) :=
  if negb (PyStr.truthy recipient) then
    ret (<["success" := PyBool false]>
         (<["message" := PyStr "Recipient must be provided"]> ∅))
  else
    sent <- call_send_message recipient message ;;
    let (success, status_message) := sent : bool * string in
    ret (<["success" := PyBool success]>
         (<["message" := PyStr status_message]> ∅)).

Definition download_failed : gmap string pyval :=
  <["success" := PyBool false]>
  (<["message" := PyStr "Failed to download media"]> ∅).

(** [if file_path] takes the [else] branch for [None] and for the empty
    path alike. *)
Definition download_media (message_id chat_jid : string) : M (gmap string pyval) :=
  file_path <- call_download_media message_id chat_jid ;;
  match file_path with
  | Some path =>
      if PyStr.truthy path then
        ret (<["success" := PyBool true]>
             (<["message" := PyStr "Media downloaded successfully"]>
              (<["file_path" := PyStr path]> ∅)))
      else ret download_failed
  | None => ret download_failed
  end.

(** ** A server process

    The tools are called one after the other in one process, and the
    configuration file may be rewritten between two calls. *)

Inductive call : Type :=
| GetListChats (list_name : string)
| ShowAllLists.

Inductive step : Type :=
| Invoke (c : call)
| EditConfig (f : config_file).

Definition set_config (f : config_file) (w : World) : World :=
  {| CHAT_LISTS_PATH := CHAT_LISTS_PATH w;
     chat_lists_json := f;
     messages_db := messages_db w;
     whatsapp_send_message := whatsapp_send_message w;
     whatsapp_download_media := whatsapp_download_media w |}.

Definition is_invoke (s : step) : bool :=
  match s with
  | Invoke _ => true
  | EditConfig _ => false
  end.

(** The content of the file after the edits of [steps]. *)
Fixpoint config_after (f : config_file) (steps : list step) : config_file :=
  match steps with
  | [] => f
  | Invoke _ :: rest => config_after f rest
  | EditConfig f' :: rest => config_after f' rest
  end.

Section Process.

Variable lower : string -> string.
Variable repr : string -> string.

Definition run_call (c : call) : M string :=
  match c with
  | GetListChats list_name => get_list_chats lower repr list_name
  | ShowAllLists => show_all_lists
  end.

(** The replies of the calls of [steps], in order. *)
Fixpoint run_process (w : World) (steps : list step) : list (outcome string) :=
  match steps with
  | [] => []
  | Invoke c :: rest => reply (run_call c) w :: run_process w rest
  | EditConfig f :: rest => run_process (set_config f w) rest
  end.

End Process.

(** ** The tools over the bridge client

    [send_file], [send_audio_message], [_resolve_chat_jid] and the two
    prompt builders call functions of the module [whatsapp]; the calls are
    logged with the arguments the source passes.  The clock gives, for the
    [days_back] of the call, the text of
    [(datetime.now() - timedelta(days=days_back)).isoformat()], or nothing
    when the date arithmetic raises [OverflowError] ([days_back] beyond
    what [timedelta] takes, or a date out of the range of [datetime]). *)

Module Bridge.

(** A chat as [whatsapp_list_chats] returns it: a [dict], or an object
    which may have an attribute [jid]. *)
Inductive chat_item : Type :=
| ChatDict (fields : gmap string string)
| ChatObject (jid : option string).

Record env : Type := {
  (** [whatsapp_list_chats(query=, limit=, include_last_message=)] *)
  whatsapp_list_chats : string -> Z -> bool -> list chat_item;
  (** [whatsapp_list_messages(chat_jid=, after=, limit=, include_context=)] *)
  whatsapp_list_messages : string -> string -> Z -> bool -> string;
  whatsapp_send_file : string -> string -> bool * string;
  whatsapp_audio_voice_message : string -> string -> bool * string;
  (** [None]: [datetime.now() - timedelta(days=days_back)] raises
      [OverflowError] *)
  isoformat_days_ago : Z -> option string
}.

(** What a prompt builder does: it returns a text, or the [OverflowError]
    of the date arithmetic leaves it. *)
Inductive result : Type :=
| Returned (text : string)
| RaisedOverflowError.

Inductive call : Type :=
| ListChats (query : string) (limit : Z) (include_last_message : bool)
| ListMessages (chat_jid after : string) (limit : Z) (include_context : bool)
| SendFile (recipient media_path : string)
| SendAudio (recipient media_path : string).

Definition is_list_messages (c : call) : bool :=
  match c with
  | ListMessages _ _ _ _ => true
  | _ => false
  end.

(** A computation over the bridge yields a value and the calls it made. *)
Definition B (A : Type) : Type := env -> A * list call.

Definition ret {A : Type} (a : A) : B A := fun _ => (a, []).

Definition bind {A C : Type} (m : B A) (k : A -> B C) : B C :=
  fun e => let (a, t) := m e in let (r, t') := k a e in (r, t ++ t').

Notation "x <~ m ;; k" := (bind m (fun x => k))
  (at level 100, m at next level, k at level 200, right associativity).

Definition call_list_chats (query : string) (limit : Z) (include_last_message : bool)
  : B (list chat_item) :=
  fun e => (whatsapp_list_chats e query limit include_last_message,
            [ListChats query limit include_last_message]).

Definition call_list_messages (chat_jid after : string) (limit : Z)
           (include_context : bool) : B string :=
  fun e => (whatsapp_list_messages e chat_jid after limit include_context,
            [ListMessages chat_jid after limit include_context]).

Definition call_send_file (recipient media_path : string) : B (bool * string) :=
  fun e => (whatsapp_send_file e recipient media_path, [SendFile recipient media_path]).

Definition call_send_audio (recipient media_path : string) : B (bool * string) :=
  fun e => (whatsapp_audio_voice_message e recipient media_path,
            [SendAudio recipient media_path]).

Definition clock (days_back : Z) : B (option string) :=
  fun e => (isoformat_days_ago e days_back, []).

Definition send_file (recipient media_path : string) : B (gmap string pyval) :=
  sent <~ call_send_file recipient media_path ;;
  let (success, status_message) := sent : bool * string in
  ret (<["success" := PyBool success]>
       (<["message" := PyStr status_message]> ∅)).

Definition send_audio_message (recipient media_path : string) : B (gmap string pyval) :=
  sent <~ call_send_audio recipient media_path ;;
  let (success, status_message) := sent : bool * string in
  ret (<["success" := PyBool success]>
       (<["message" := PyStr status_message]> ∅)).

(** [c.get("jid")] for a [dict], [getattr(c, "jid", None)] otherwise. *)
Definition item_jid (c : chat_item) : option string :=
  match c with
  | ChatDict fields => fields !! "jid"
  | ChatObject jid => jid
  end.

Definition _resolve_chat_jid (group_name : string) : B (option string) :=
  chats <~ call_list_chats group_name 5 true ;;
  match chats with
  | [] => ret None
  | c :: _ => ret (item_jid c)
  end.

Definition could_not_find (group_name : string) : string :=
  "Could not find a group matching '" +:+ group_name
    +:+ "'. Try list_chats to see available groups.".

Definition no_messages_found : string :=
  "No messages found in this chat for the given time period.".

Definition itinerary_prompt (messages : string) : string :=
  "You are a helpful trip planner assistant. Below are WhatsApp messages from a group trip planning chat."
    +:+ PyStr.nl
    +:+ "Extract and organize all trip-related information into a clear, structured itinerary."
    +:+ PyStr.nl
    +:+ "Include: dates, times, locations, hotel/accommodation details, activities, restaurant bookings, "
    +:+ "transport plans, and any action items or things to confirm."
    +:+ PyStr.nl
    +:+ "If exact dates are missing, make a note. Format as a day-by-day plan where possible."
    +:+ PyStr.nl +:+ PyStr.nl
    +:+ "MESSAGES:" +:+ PyStr.nl
    +:+ messages +:+ PyStr.nl +:+ PyStr.nl
    +:+ "ITINERARY:".

Definition packing_prompt (messages : string) : string :=
  "You are a helpful trip assistant. Below are WhatsApp messages from a group trip planning chat."
    +:+ PyStr.nl
    +:+ "Extract and consolidate everything related to packing and what people are bringing."
    +:+ PyStr.nl
    +:+ "Look for: 'I'll bring', 'I'm packing', 'don't forget', 'we need', 'who's bringing', "
    +:+ "'reminder to pack', and similar phrases."
    +:+ PyStr.nl
    +:+ "Organize into categories: Clothes & Accessories, Toiletries, Tech & Gadgets, "
    +:+ "Food & Drinks, Shared Supplies, Documents & Money, and Other."
    +:+ PyStr.nl
    +:+ "For each item note who is bringing it if mentioned, and flag any items where no one "
    +:+ "has volunteered yet."
    +:+ PyStr.nl +:+ PyStr.nl
    +:+ "MESSAGES:" +:+ PyStr.nl
    +:+ messages +:+ PyStr.nl +:+ PyStr.nl
    +:+ "PACKING LIST:".

(** [if not messages or messages.startswith("No messages")] *)
Definition no_messages (messages : string) : bool :=
  negb (PyStr.truthy messages) || String.prefix "No messages" messages.

(** The body shared by the two prompt builders, which differ in the
    prompt alone.  [if not chat_jid] takes the branch of [None] and of the
    empty jid alike. *)
Definition extract_with (prompt : string -> string) (group_name : string)
           (days_back : Z) : B result :=
  chat_jid <~ _resolve_chat_jid group_name ;;
  match chat_jid with
  | None => ret (Returned (could_not_find group_name))
  | Some chat_jid =>
      if negb (PyStr.truthy chat_jid) then ret (Returned (could_not_find group_name))
      else
        after <~ clock days_back ;;
        match after with
        | None => ret RaisedOverflowError
        | Some after =>
            messages <~ call_list_messages chat_jid after 500 false ;;
            if no_messages messages then ret (Returned no_messages_found)
            else ret (Returned (prompt messages))
        end
  end.

Definition extract_trip_itinerary (group_name : string) (days_back : Z) : B result :=
  extract_with itinerary_prompt group_name days_back.

Definition extract_packing_list (group_name : string) (days_back : Z) : B result :=
  extract_with packing_prompt group_name days_back.

End Bridge.

(** ** Sample data *)

Module Sample.

Definition trip_lists : chat_lists :=
  [("Trip", ["trip"; "vacation"]); ("Family", ["mom"; "dad"])].

Definition girls_trip : Sqlite.chat :=
  {| Sqlite.c_jid := "120363000000000001@g.us";
     Sqlite.c_name := Some "Girls Trip 2024";
     Sqlite.c_last_message_time := Sqlite.Text "2024-05-02 09:30:00+00:00" |}.

Definition mom : Sqlite.chat :=
  {| Sqlite.c_jid := "4915100000001@s.whatsapp.net";
     Sqlite.c_name := Some "Mom";
     Sqlite.c_last_message_time := Sqlite.Text "2024-05-03 18:00:00+00:00" |}.

Definition vacation_2023 : Sqlite.chat :=
  {| Sqlite.c_jid := "120363000000000002@g.us";
     Sqlite.c_name := Some "VACATION pics";
     Sqlite.c_last_message_time := Sqlite.Text "2024-05-04 07:15:00+00:00" |}.

Definition unnamed : Sqlite.chat :=
  {| Sqlite.c_jid := "4915100000002@s.whatsapp.net";
     Sqlite.c_name := Some "";
     Sqlite.c_last_message_time := Sqlite.Text "2024-05-05 12:00:00+00:00" |}.

Definition long_text : string :=
  "Booked the flights for Friday morning, we leave at 6:40 from gate B12 so be early".

Definition dads_vacation : Sqlite.chat :=
  {| Sqlite.c_jid := "120363000000000003@g.us";
     Sqlite.c_name := Some "Dad's Vacation";
     Sqlite.c_last_message_time := Sqlite.Text "2024-04-30 21:45:00+00:00" |}.

Definition book_club : Sqlite.chat :=
  {| Sqlite.c_jid := "120363000000000004@g.us";
     Sqlite.c_name := Some "Book club";
     Sqlite.c_last_message_time := Sqlite.Null |}.

Definition nameless : Sqlite.chat :=
  {| Sqlite.c_jid := "4915100000003@s.whatsapp.net";
     Sqlite.c_name := None;
     Sqlite.c_last_message_time := Sqlite.Text "2024-05-06 08:00:00+00:00" |}.

Definition db : Sqlite.database :=
  {| Sqlite.chats :=
       [girls_trip; mom; vacation_2023; unnamed; dads_vacation; book_club; nameless];
     Sqlite.messages :=
       [ {| Sqlite.m_chat_jid := "120363000000000001@g.us";
            Sqlite.m_timestamp := Sqlite.Text "2024-05-02 09:30:00+00:00";
            Sqlite.m_content := Some long_text |};
         {| Sqlite.m_chat_jid := "4915100000001@s.whatsapp.net";
            Sqlite.m_timestamp := Sqlite.Text "2024-05-03 18:00:00+00:00";
            Sqlite.m_content := Some "Call me" |};
         {| Sqlite.m_chat_jid := "120363000000000002@g.us";
            Sqlite.m_timestamp := Sqlite.Text "2024-05-04 07:15:00+00:00";
            Sqlite.m_content := Some "See you" |};
         {| Sqlite.m_chat_jid := "4915100000002@s.whatsapp.net";
            Sqlite.m_timestamp := Sqlite.Text "2024-05-05 12:00:00+00:00";
            Sqlite.m_content := Some "trip?" |};
         {| Sqlite.m_chat_jid := "4915100000003@s.whatsapp.net";
            Sqlite.m_timestamp := Sqlite.Text "2024-05-06 08:00:00+00:00";
            Sqlite.m_content := Some "vacation" |};
         {| Sqlite.m_chat_jid := "120363000000000003@g.us";
            Sqlite.m_timestamp := Sqlite.Text "2024-04-30 21:45:00+00:00";
            Sqlite.m_content := None |} ] |}.

Definition girls_trip_row : Sqlite.row :=
  ("120363000000000001@g.us", Some "Girls Trip 2024",
   Sqlite.Text "2024-05-02 09:30:00+00:00", Some long_text).

Definition vacation_row : Sqlite.row :=
  ("120363000000000002@g.us", Some "VACATION pics",
   Sqlite.Text "2024-05-04 07:15:00+00:00", Some "See you").

Definition dads_vacation_row : Sqlite.row :=
  ("120363000000000003@g.us", Some "Dad's Vacation",
   Sqlite.Text "2024-04-30 21:45:00+00:00", None).

Definition mom_row : Sqlite.row :=
  ("4915100000001@s.whatsapp.net", Some "Mom",
   Sqlite.Text "2024-05-03 18:00:00+00:00", Some "Call me").

Definition book_club_row : Sqlite.row :=
  ("120363000000000004@g.us", Some "Book club", Sqlite.Null, None).

(** A configuration whose only keyword is the empty string, which occurs
    in every name. *)
Definition everything_lists : chat_lists := [("All", [""])].

(** A configuration with an empty label. *)
Definition empty_label_lists : chat_lists :=
  [("", ["trip"]); ("Family", ["mom"; "dad"])].

(** The configuration after the user has edited the file. *)
Definition edited_lists : chat_lists := [("Trip", ["mom"])].

Definition transport_ok (recipient message : string) : bool * string :=
  (true, "Message sent to " +:+ recipient).

Definition download_to (p : option string) (message_id chat_jid : string)
  : option string := p.

Definition world (f : config_file) (store : string + Sqlite.database)
           (p : option string) : World :=
  {| CHAT_LISTS_PATH := "/srv/whatsapp-mcp-server/chat_lists.json";
     chat_lists_json := f;
     messages_db := store;
     whatsapp_send_message := transport_ok;
     whatsapp_download_media := download_to p |}.

Definition w_trip : World := world (Holds trip_lists) (inr db) None.

Definition w_everything : World := world (Holds everything_lists) (inr db) None.

Definition w_no_config : World := world Absent (inr db) None.

Definition w_empty_label : World := world (Holds empty_label_lists) (inr db) None.

Definition w_store_down : World :=
  world (Holds trip_lists) (inl "unable to open database file") None.

Definition w_empty_path : World := world (Holds trip_lists) (inr db) (Some "").

Definition w_media : World :=
  world (Holds trip_lists) (inr db) (Some "/srv/store/media/IMG-0001.jpg").

Definition get (list_name : string) : M string :=
  get_list_chats PyStr.ascii_lower PyStr.plain_repr list_name.

End Sample.

Module BridgeSample.

Definition girls_trip_chat : Bridge.chat_item :=
  Bridge.ChatDict
    (<["jid" := "120363000000000001@g.us"]> (<["name" := "Girls Trip 2024"]> ∅)).

Definition lisbon_trip_chat : Bridge.chat_item :=
  Bridge.ChatObject (Some "120363000000000009@g.us").

Definition transcript : string :=
  "[2024-05-02 09:30:00] Ana: Flights booked for Friday" +:+ PyStr.nl
    +:+ "[2024-05-02 09:31:00] Bea: I'll bring the sunscreen".

(** A bridge that knows two groups matching ["trip"], one group without
    messages and one chat without a jid. *)
Definition list_chats (query : string) (limit : Z) (include_last_message : bool)
  : list Bridge.chat_item :=
  if String.eqb query "trip" then [girls_trip_chat; lisbon_trip_chat]
  else if String.eqb query "silent" then
    [Bridge.ChatObject (Some "120363000000000005@g.us")]
  else if String.eqb query "broken" then [Bridge.ChatDict ∅; girls_trip_chat]
  else [].

Definition list_messages (chat_jid after : string) (limit : Z) (include_context : bool)
  : string :=
  if String.eqb chat_jid "120363000000000001@g.us" then transcript
  else "No messages to display.".

Definition bridge : Bridge.env :=
  {| Bridge.whatsapp_list_chats := list_chats;
     Bridge.whatsapp_list_messages := list_messages;
     Bridge.whatsapp_send_file :=
       fun recipient media_path =>
         if PyStr.truthy recipient then (true, "File sent to " +:+ recipient)
         else (false, "Recipient must be provided");
     Bridge.whatsapp_audio_voice_message :=
       fun recipient media_path => (false, "ffmpeg is not installed");
     Bridge.isoformat_days_ago :=
       fun days_back =>
         if (0 <=? days_back)%Z && (days_back <=? 700000)%Z
         then Some "2024-04-03T10:00:00.000000"
         else None |}.

End BridgeSample.

(** The first component of a fetched row. *)
Definition row_jid (r : Sqlite.row) : string := let '(jid, _, _, _) := r in jid.

Module ExtraSample.

(** A list without keywords. *)
Definition quiet_lists : chat_lists := [("Quiet", [])].

Definition w_quiet : World := Sample.world (Holds quiet_lists) (inr Sample.db) None.

(** Two labels that are equal up to case. *)
Definition shadow_lists : chat_lists := [("Trip", ["trip"]); ("TRIP", ["vacation"])].

Definition w_unreadable : World :=
  Sample.world (Unreadable (JSONDecodeError "Expecting value: line 1 column 1 (char 0)"))
    (inr Sample.db) None.

(** A store in which two messages of one chat carry its last-message
    time. *)
Definition db_twins : Sqlite.database :=
  {| Sqlite.chats := [Sample.girls_trip; Sample.mom; Sample.book_club];
     Sqlite.messages :=
       [ {| Sqlite.m_chat_jid := "120363000000000001@g.us";
            Sqlite.m_timestamp := Sqlite.Text "2024-05-02 09:30:00+00:00";
            Sqlite.m_content := Some "Who brings the tent?" |};
         {| Sqlite.m_chat_jid := "120363000000000001@g.us";
            Sqlite.m_timestamp := Sqlite.Text "2024-05-02 09:30:00+00:00";
            Sqlite.m_content := Some "I do" |};
         {| Sqlite.m_chat_jid := "4915100000001@s.whatsapp.net";
            Sqlite.m_timestamp := Sqlite.Text "2024-05-03 18:00:00+00:00";
            Sqlite.m_content := Some "Call me" |} ] |}.

(** A store with two chats that never had a message. *)
Definition trip_archive : Sqlite.chat :=
  {| Sqlite.c_jid := "120363000000000007@g.us";
     Sqlite.c_name := Some "Trip archive";
     Sqlite.c_last_message_time := Sqlite.Null |}.

Definition db_untimed : Sqlite.database :=
  {| Sqlite.chats := [Sample.book_club; Sample.girls_trip; trip_archive];
     Sqlite.messages := [] |}.

Definition trip_archive_row : Sqlite.row :=
  ("120363000000000007@g.us", Some "Trip archive", Sqlite.Null, None).

Definition girls_trip_silent_row : Sqlite.row :=
  ("120363000000000001@g.us", Some "Girls Trip 2024",
   Sqlite.Text "2024-05-02 09:30:00+00:00", None).

End ExtraSample.

(** ** The moment a stored time denotes

    The ordering of a listing is stated against chronology with [instant],
    which reads a stored last-message time as a moment in seconds since
    1970-01-01 00:00:00 UTC: an integer is that number of seconds, a text
    of the layout [YYYY-MM-DD HH:MM:SS+HH:MM] is the moment it spells, and
    [NULL] or any other text denotes no moment.  The code never computes a
    moment: it leaves the order to the comparison of the stored values. *)

Module Chronology.

Definition digit (c : ascii) : option Z :=
  let n := Z.of_nat (nat_of_ascii c) in
  if (48 <=? n)%Z && (n <=? 57)%Z then Some (n - 48)%Z else None.

(** The number spelled by the digits [l], after the digits of [acc]. *)
Fixpoint number (acc : Z) (l : list ascii) : option Z :=
  match l with
  | [] => Some acc
  | c :: l' =>
      match digit c with
      | Some d => number (10 * acc + d)%Z l'
      | None => None
      end
  end.

(** Days from 1970-01-01 to the day [y]-[m]-[d] of the Gregorian
    calendar. *)
Definition days_from_civil (y m d : Z) : Z :=
  let y' := if (m <=? 2)%Z then (y - 1)%Z else y in
  let era := (y' / 400)%Z in
  let yoe := (y' - era * 400)%Z in
  let mp := if (m <=? 2)%Z then (m + 9)%Z else (m - 3)%Z in
  let doy := ((153 * mp + 2) / 5 + d - 1)%Z in
  let doe := (yoe * 365 + yoe / 4 - yoe / 100 + doy)%Z in
  (era * 146097 + doe - 719468)%Z.

(** Days from the first of March of the year 0 to the first of March
    of the year [y]: the part of [days_from_civil] that depends on the
    year only. *)
Definition march_first (y : Z) : Z :=
  let era := (y / 400)%Z in
  let yoe := (y - era * 400)%Z in
  (era * 146097 + yoe * 365 + yoe / 4 - yoe / 100)%Z.

Definition leap (y : Z) : bool :=
  ((y mod 4 =? 0)%Z && negb (y mod 100 =? 0)%Z) || (y mod 400 =? 0)%Z.

Definition days_in_month (y m : Z) : Z :=
  if (m =? 2)%Z then (if leap y then 29 else 28)%Z
  else if (m =? 4)%Z || (m =? 6)%Z || (m =? 9)%Z || (m =? 11)%Z then 30%Z
       else 31%Z.

(** [y]-[m]-[d] is a day of the calendar. *)
Definition valid_day (y m d : Z) : Prop :=
  (1 <= m <= 12)%Z /\ (1 <= d <= days_in_month y m)%Z.

(** The code of a character. *)
Definition code (c : ascii) : Z := Z.of_nat (nat_of_ascii c).

Definition in_range (lo x hi : Z) : bool := (lo <=? x)%Z && (x <=? hi)%Z.

Definition is_char (c : ascii) (n : nat) : bool := Nat.eqb (nat_of_ascii c) n.

(** Seconds from 1970-01-01 00:00:00 to the given time of the given
    day, read on one clock. *)
Definition local_seconds (y m d h n sec : Z) : Z :=
  (days_from_civil y m d * 86400 + h * 3600 + n * 60 + sec)%Z.

(** The UTC offset ending a text of 25 characters. *)
Definition utc_offset (s : string) : string := substring 19 6 s.

(** The seconds by which a clock at the UTC offset [+HH:MM] or [-HH:MM]
    is ahead of UTC. *)
Definition seconds_ahead (l : list ascii) : option Z :=
  match l with
  | [sg; o1; o2; p; o3; o4] =>
      if is_char p 58 && (is_char sg 43 || is_char sg 45)
      then
        match number 0 [o1; o2], number 0 [o3; o4] with
        | Some oh, Some om =>
            if in_range 0 oh 23 && in_range 0 om 59
            then Some (if is_char sg 43 then oh * 3600 + om * 60
                       else - (oh * 3600 + om * 60))%Z
            else None
        | _, _ => None
        end
      else None
  | _ => None
  end.

(** The moment spelled by [YYYY-MM-DD HH:MM:SS+HH:MM] (or [-HH:MM]), in
    seconds from 1970-01-01 00:00:00 UTC; no moment for a text of another
    layout or one that names no day of the calendar. *)
Definition instant_of_text (s : string) : option Z :=
  match list_ascii_of_string s with
  | [y1; y2; y3; y4; p1; m1; m2; p2; d1; d2; p3; h1; h2; p4; n1; n2; p5; s1; s2;
     sg; o1; o2; p6; o3; o4] =>
      if is_char p1 45 && is_char p2 45 && is_char p3 32 && is_char p4 58
         && is_char p5 58
      then
        match number 0 [y1; y2; y3; y4], number 0 [m1; m2], number 0 [d1; d2],
              number 0 [h1; h2], number 0 [n1; n2], number 0 [s1; s2],
              seconds_ahead [sg; o1; o2; p6; o3; o4] with
        | Some y, Some m, Some d, Some h, Some n, Some sec, Some ahead =>
            if in_range 1 y 9999 && in_range 1 m 12
               && in_range 1 d (days_in_month y m) && in_range 0 h 23
               && in_range 0 n 59 && in_range 0 sec 59
            then Some (local_seconds y m d h n sec - ahead)%Z
            else None
        | _, _, _, _, _, _, _ => None
        end
      else None
  | _ => None
  end.

(** The number spelled by two digits, and by four. *)
Definition two (c1 c2 : ascii) : Z := (10 * (code c1 - 48) + (code c2 - 48))%Z.

Definition four (c1 c2 c3 c4 : ascii) : Z := (100 * two c1 c2 + two c3 c4)%Z.

Definition instant (v : Sqlite.value) : option Z :=
  match v with
  | Sqlite.Null => None
  | Sqlite.Integer z => Some z
  | Sqlite.Text s => instant_of_text s
  end.

(** [a] stands before [b] in [l]. *)
Definition listed_before (l : list Sqlite.row) (a b : Sqlite.row) : Prop :=
  exists l1 l2 l3, l = l1 ++ a :: l2 ++ b :: l3.

(** Most recently active first: no chat stands before a chat that was
    active at a later moment. *)
Definition most_recent_first (l : list Sqlite.row) : Prop :=
  forall a b ta tb,
    listed_before l a b ->
    instant (Sqlite.row_time a) = Some ta ->
    instant (Sqlite.row_time b) = Some tb ->
    (tb <= ta)%Z.

(** The stored times of [l] are of one kind: no text among them, or no
    integer among them and one UTC offset in all the texts that spell a
    moment. *)
Definition stored_alike (l : list Sqlite.row) : Prop :=
  (forall r s, In r l -> Sqlite.row_time r <> Sqlite.Text s)
  \/ ((forall r z, In r l -> Sqlite.row_time r <> Sqlite.Integer z)
      /\ exists off, forall r s z,
          In r l -> Sqlite.row_time r = Sqlite.Text s ->
          instant_of_text s = Some z -> utc_offset s = off).

End Chronology.

Module RecencySample.

(** Four chats whose last-message times are stored as the bridge wrote
    them: three texts, one of them with another UTC offset, and one
    integer. *)
Definition lisbon : Sqlite.chat :=
  {| Sqlite.c_jid := "120363000000000011@g.us";
     Sqlite.c_name := Some "Lisbon trip";
     Sqlite.c_last_message_time := Sqlite.Text "2024-05-04 00:30:00+10:00" |}.

Definition budget : Sqlite.chat :=
  {| Sqlite.c_jid := "120363000000000012@g.us";
     Sqlite.c_name := Some "Trip budget";
     Sqlite.c_last_message_time := Sqlite.Text "2024-05-03 23:00:00+00:00" |}.

Definition road : Sqlite.chat :=
  {| Sqlite.c_jid := "120363000000000013@g.us";
     Sqlite.c_name := Some "Road trip";
     Sqlite.c_last_message_time := Sqlite.Integer 1714953600 |}.

Definition photos : Sqlite.chat :=
  {| Sqlite.c_jid := "120363000000000014@g.us";
     Sqlite.c_name := Some "Trip photos";
     Sqlite.c_last_message_time := Sqlite.Text "2024-05-01 08:00:00+00:00" |}.

Definition db : Sqlite.database :=
  {| Sqlite.chats := [lisbon; budget; road; photos]; Sqlite.messages := [] |}.

Definition lisbon_row : Sqlite.row :=
  ("120363000000000011@g.us", Some "Lisbon trip",
   Sqlite.Text "2024-05-04 00:30:00+10:00", None).

Definition budget_row : Sqlite.row :=
  ("120363000000000012@g.us", Some "Trip budget",
   Sqlite.Text "2024-05-03 23:00:00+00:00", None).

Definition road_row : Sqlite.row :=
  ("120363000000000013@g.us", Some "Road trip", Sqlite.Integer 1714953600, None).

Definition photos_row : Sqlite.row :=
  ("120363000000000014@g.us", Some "Trip photos",
   Sqlite.Text "2024-05-01 08:00:00+00:00", None).

Definition w : World := Sample.world (Holds Sample.trip_lists) (inr db) None.

(** A store whose times are all integers. *)
Definition db_epoch : Sqlite.database :=
  {| Sqlite.chats :=
       [ {| Sqlite.c_jid := "120363000000000011@g.us";
            Sqlite.c_name := Some "Lisbon trip";
            Sqlite.c_last_message_time := Sqlite.Integer 1714746600 |};
         {| Sqlite.c_jid := "120363000000000013@g.us";
            Sqlite.c_name := Some "Road trip";
            Sqlite.c_last_message_time := Sqlite.Integer 1714953600 |};
         {| Sqlite.c_jid := "120363000000000012@g.us";
            Sqlite.c_name := Some "Trip budget";
            Sqlite.c_last_message_time := Sqlite.Integer 1714777200 |} ];
     Sqlite.messages := [] |}.

Definition w_epoch : World :=
  Sample.world (Holds Sample.trip_lists) (inr db_epoch) None.

End RecencySample.

(** * Properties *)

(** ** Strings *)

Lemma append_nil_l (s : string) : "" +:+ s = s.
Proof. reflexivity. Qed.

Lemma append_cons (c : ascii) (a b : string) :
  String c a +:+ b = String c (a +:+ b).
Proof. reflexivity. Qed.

Lemma append_empty_r (s : string) : s +:+ "" = s.
Proof.
  induction s as [|c s IH]; [reflexivity | now rewrite append_cons, IH].
Qed.

Lemma append_assoc (a b c : string) : (a +:+ b) +:+ c = a +:+ (b +:+ c).
Proof.
  induction a as [|x a IH]; [reflexivity | now rewrite !append_cons, IH].
Qed.

Lemma length_append (a b : string) :
  String.length (a +:+ b) = (String.length a + String.length b)%nat.
Proof.
  induction a as [|x a IH]; [reflexivity | rewrite append_cons; simpl; now rewrite IH].
Qed.

Lemma prefix_spec (p s : string) :
  String.prefix p s = true <-> exists post, s = p +:+ post.
Proof.
  revert s; induction p as [|a p IH]; intros s.
  - destruct s; simpl; split; eauto.
  - destruct s as [|b s]; simpl.
    + split; [discriminate | intros [post H]; discriminate].
    + destruct (ascii_dec a b) as [->|Hne].
      * rewrite IH. split; intros [post H]; exists post;
          rewrite append_cons in *; congruence.
      * split; [discriminate | intros [post H]; rewrite append_cons in H; congruence].
Qed.

(** [sub in s] is true exactly when [sub] occurs in [s]. *)
Lemma str_in_spec (sub s : string) :
  PyStr.str_in sub s = true <-> PyStr.occurs_in sub s.
Proof.
  unfold PyStr.occurs_in.
  induction s as [|c s IH]; cbn [PyStr.str_in].
  - rewrite orb_false_r, prefix_spec. split.
    + intros [post H]. exists "", post. exact H.
    + intros [pre [post H]]. destruct pre; [eauto | discriminate].
  - rewrite orb_true_iff, prefix_spec, IH. split.
    + intros [[post H] | [pre [post H]]].
      * exists "", post. exact H.
      * exists (String c pre), post. rewrite append_cons. now rewrite H.
    + intros [pre [post H]]. destruct pre as [|c' pre].
      * left. eauto.
      * right. rewrite append_cons in H. injection H as _ H. eauto.
Qed.

Lemma str_in_empty_sub (s : string) : PyStr.str_in "" s = true.
Proof. apply str_in_spec. exists "", s. reflexivity. Qed.

Lemma truthy_true_iff (s : string) : PyStr.truthy s = true <-> s <> "".
Proof. destruct s; simpl; split; congruence. Qed.

Lemma or_empty_Some (s : string) : PyStr.or_empty (Some s) = s.
Proof. destruct s; reflexivity. Qed.

Lemma substring_0_length (n : nat) (s : string) :
  (n <= String.length s)%nat -> String.length (String.substring 0 n s) = n.
Proof.
  revert s; induction n as [|n IH]; intros s H.
  - destruct s; reflexivity.
  - destruct s as [|c s]; simpl in *; [lia | rewrite IH; lia].
Qed.

Lemma substring_0_prefix (n : nat) (s : string) :
  exists rest, s = String.substring 0 n s +:+ rest.
Proof.
  revert s; induction n as [|n IH]; intros s.
  - exists s. destruct s; reflexivity.
  - destruct s as [|c s]; simpl.
    + exists "". reflexivity.
    + destruct (IH s) as [rest H]. exists rest. rewrite append_cons. now rewrite <- H.
Qed.

(** ** The store query *)

Lemma string_leb_trans (a b c : string) :
  String.leb a b = true -> String.leb b c = true -> String.leb a c = true.
Proof.
  intros H1 H2. apply Is_true_true.
  apply (@transitivity _ String.le _ a b c); apply Is_true_true; assumption.
Qed.

Lemma leb_total (a b : Sqlite.value) :
  Sqlite.leb a b = true \/ Sqlite.leb b a = true.
Proof.
  destruct a as [|x|s], b as [|y|t]; simpl; auto.
  - destruct (Z.leb_spec x y); [auto | right; apply Z.leb_le; lia].
  - apply String.leb_total.
Qed.

Lemma leb_trans (a b c : Sqlite.value) :
  Sqlite.leb a b = true -> Sqlite.leb b c = true -> Sqlite.leb a c = true.
Proof.
  destruct a as [|x|s], b as [|y|t], c as [|z|u]; simpl; try congruence.
  - rewrite !Z.leb_le. lia.
  - apply string_leb_trans.
Qed.

Lemma leb_false_flip (a b : Sqlite.value) :
  Sqlite.leb a b = false -> Sqlite.leb b a = true.
Proof. intros H. destruct (leb_total a b); congruence. Qed.

Lemma insert_desc_perm (r : Sqlite.row) (l : list Sqlite.row) :
  Permutation (r :: l) (Sqlite.insert_desc r l).
Proof.
  induction l as [|x l IH]; simpl.
  - apply Permutation_refl.
  - destruct (Sqlite.leb (Sqlite.row_time x) (Sqlite.row_time r)).
    + apply Permutation_refl.
    + eapply Permutation_trans; [apply perm_swap | apply perm_skip, IH].
Qed.

Lemma order_by_time_desc_perm (l : list Sqlite.row) :
  Permutation l (Sqlite.order_by_time_desc l).
Proof.
  induction l as [|x l IH]; simpl.
  - apply Permutation_refl.
  - eapply Permutation_trans; [apply perm_skip, IH | apply insert_desc_perm].
Qed.

Lemma insert_desc_sorted (r : Sqlite.row) (l : list Sqlite.row) :
  StronglySorted Sqlite.time_desc l ->
  StronglySorted Sqlite.time_desc (Sqlite.insert_desc r l).
Proof.
  induction 1 as [|x l Hs IH Hx]; simpl.
  - constructor; constructor.
  - destruct (Sqlite.leb (Sqlite.row_time x) (Sqlite.row_time r)) eqn:E.
    + constructor; [constructor; assumption |].
      constructor; [exact E |].
      eapply List.Forall_impl; [| exact Hx].
      intros y Hy. unfold Sqlite.time_desc in *. eapply leb_trans; eassumption.
    + constructor; [exact IH |].
      eapply Permutation_Forall; [apply insert_desc_perm |].
      constructor; [| exact Hx].
      unfold Sqlite.time_desc. now apply leb_false_flip.
Qed.

(** The fetched rows come most recently active first. *)
Lemma order_by_time_desc_sorted (l : list Sqlite.row) :
  StronglySorted Sqlite.time_desc (Sqlite.order_by_time_desc l).
Proof.
  induction l as [|x l IH]; simpl; [constructor | now apply insert_desc_sorted].
Qed.

Lemma filter_sorted (f : Sqlite.row -> bool) (l : list Sqlite.row) :
  StronglySorted Sqlite.time_desc l ->
  StronglySorted Sqlite.time_desc (List.filter f l).
Proof.
  induction 1 as [|x l Hs IH Hx]; simpl; [constructor |].
  destruct (f x); [| exact IH].
  constructor; [exact IH |].
  apply List.Forall_forall. intros y Hy. apply List.filter_In in Hy as [Hy _].
  rewrite List.Forall_forall in Hx. now apply Hx.
Qed.

Lemma named_chats_In (db : Sqlite.database) (r : Sqlite.row) :
  In r (Sqlite.named_chats db) <->
  exists cm, In cm (Sqlite.left_join db) /\ Sqlite.where_named cm = true
             /\ r = Sqlite.select cm.
Proof.
  unfold Sqlite.named_chats. split.
  - intros H.
    apply (Permutation_in _ (Permutation_sym (order_by_time_desc_perm _))) in H.
    apply in_map_iff in H as [cm [<- H]]. apply List.filter_In in H as [H1 H2].
    exists cm. auto.
  - intros [cm [H1 [H2 ->]]].
    apply (Permutation_in _ (order_by_time_desc_perm _)).
    apply in_map. apply List.filter_In. auto.
Qed.

Lemma left_join_chat (db : Sqlite.database) (cm : Sqlite.chat * option Sqlite.message) :
  In cm (Sqlite.left_join db) -> In (fst cm) (Sqlite.chats db).
Proof.
  unfold Sqlite.left_join. intros H. apply in_flat_map in H as [c [Hc H]].
  destruct (List.filter (Sqlite.on_last_message c) (Sqlite.messages db)) as [|m ms].
  - destruct H as [<- | []]. exact Hc.
  - apply in_map_iff in H as [m' [<- _]]. exact Hc.
Qed.

(** Every fetched row is the row of a chat of the table, and its name is a
    non-empty string. *)
Lemma named_chats_named (db : Sqlite.database) (r : Sqlite.row) :
  In r (Sqlite.named_chats db) ->
  exists c n, In c (Sqlite.chats db) /\ Sqlite.c_name c = Some n /\ n <> ""
              /\ Sqlite.row_name r = Some n
              /\ fst (fst (fst r)) = Sqlite.c_jid c
              /\ Sqlite.row_time r = Sqlite.c_last_message_time c.
Proof.
  intros H. apply named_chats_In in H as [[c m] [Hj [Hw ->]]].
  apply left_join_chat in Hj. simpl in Hj.
  unfold Sqlite.where_named in Hw. simpl in Hw.
  destruct (Sqlite.c_name c) as [n|] eqn:En; [| discriminate].
  exists c, n. repeat split; auto.
  - intros ->. discriminate.
Qed.

(** A chat of the table whose name is a non-empty string is fetched. *)
Lemma named_chats_complete (db : Sqlite.database) (c : Sqlite.chat) (n : string) :
  In c (Sqlite.chats db) -> Sqlite.c_name c = Some n -> n <> "" ->
  exists last_msg,
    In (Sqlite.c_jid c, Some n, Sqlite.c_last_message_time c, last_msg)
       (Sqlite.named_chats db).
Proof.
  intros Hc Hn Hne.
  assert (exists m, In (c, m) (Sqlite.left_join db)) as [m Hm].
  { unfold Sqlite.left_join.
    destruct (List.filter (Sqlite.on_last_message c) (Sqlite.messages db))
      as [|m ms] eqn:E.
    - exists None. apply in_flat_map. exists c. split; [exact Hc |].
      rewrite E. now left.
    - exists (Some m). apply in_flat_map. exists c. split; [exact Hc |].
      rewrite E. now left. }
  exists (match m with None => None | Some m => Sqlite.m_content m end).
  apply named_chats_In. exists (c, m). split; [exact Hm |]. split.
  - unfold Sqlite.where_named. simpl. rewrite Hn.
    apply negb_true_iff, String.eqb_neq. exact Hne.
  - simpl. now rewrite Hn.
Qed.

(** ** Running [get_list_chats] *)

Lemma dict_getitem_key (lists : chat_lists) (k : string) :
  In k (dict_keys lists) ->
  exists keywords, dict_getitem lists k = Returns keywords /\ In (k, keywords) lists.
Proof.
  induction lists as [|[k' v] rest IH]; simpl; [intros [] |].
  intros H. destruct (String.eqb_spec k' k) as [->|Hne].
  - exists v. auto.
  - destruct H as [H|H]; [congruence |].
    destruct (IH H) as [kws [H1 H2]]. exists kws. auto.
Qed.

(** In a dictionary, whose keys are distinct, [lists[k]] is the value bound
    to [k]. *)
Lemma dict_getitem_wf (lists : chat_lists) (k : string) (v : list string) :
  dict_wf lists -> In (k, v) lists -> dict_getitem lists k = Returns v.
Proof.
  unfold dict_wf, dict_keys.
  induction lists as [|[k' v'] rest IH]; simpl; [intros _ [] |].
  intros Hnd [H|H].
  - injection H as -> ->. now rewrite String.eqb_refl.
  - apply List.NoDup_cons_iff in Hnd as [Hnotin Hnd].
    destruct (String.eqb_spec k' k) as [->|Hne]; [| now apply IH].
    exfalso. apply Hnotin. apply in_map_iff. exists (k, v). auto.
Qed.

Lemma dict_truthy_keys (lists : chat_lists) (k : string) :
  In k (dict_keys lists) -> dict_truthy lists = true.
Proof. destruct lists; simpl; [intros [] | reflexivity]. Qed.

Section Lookup.

Variable lower : string -> string.

Lemma next_matching_key_Some (lists : chat_lists) (list_name k : string) :
  next_matching_key lower lists list_name = Some k ->
  In k (dict_keys lists) /\ lower k = lower list_name.
Proof.
  unfold next_matching_key. intros H. apply find_some in H as [H1 H2].
  split; [exact H1 | now apply String.eqb_eq].
Qed.

Lemma next_matching_key_None (lists : chat_lists) (list_name : string) :
  next_matching_key lower lists list_name = None <->
  forall k, In k (dict_keys lists) -> lower k <> lower list_name.
Proof.
  unfold next_matching_key. split.
  - intros H k Hk. apply String.eqb_neq. exact (find_none _ _ H k Hk).
  - intros H. destruct (List.find _ _) as [k|] eqn:E; [| reflexivity].
    apply find_some in E as [E1 E2]. apply String.eqb_eq in E2.
    now destruct (H k E1).
Qed.

(** The lookup depends on [list_name] through its lowercase form only. *)
Lemma next_matching_key_case (lists : chat_lists) (n1 n2 : string) :
  lower n1 = lower n2 ->
  next_matching_key lower lists n1 = next_matching_key lower lists n2.
Proof. unfold next_matching_key. intros ->. reflexivity. Qed.

(** A label that equals [list_name] up to case makes the lookup succeed,
    with the first such label of the file. *)
Lemma next_matching_key_first (lists : chat_lists) (list_name label : string) :
  In label (dict_keys lists) -> lower label = lower list_name ->
  exists before k after,
    dict_keys lists = before ++ k :: after
    /\ next_matching_key lower lists list_name = Some k
    /\ lower k = lower list_name
    /\ forall k', In k' before -> lower k' <> lower list_name.
Proof.
  unfold next_matching_key. generalize (dict_keys lists) as keys.
  induction keys as [|x keys IH]; simpl; [intros [] |].
  intros Hin Heq. destruct (String.eqb_spec (lower x) (lower list_name)) as [E|E].
  - exists [], x, keys. split; [reflexivity |]. split; [reflexivity |].
    split; [exact E |]. intros k' [].
  - destruct Hin as [->|Hin]; [congruence |].
    destruct (IH Hin Heq) as [before [k [after [H1 [H2 [H3 H4]]]]]].
    exists (x :: before), k, after.
    split; [now rewrite H1 |]. split; [exact H2 |]. split; [exact H3 |].
    intros k' [<-|Hk']; auto.
Qed.

Lemma select_matches_In (keywords : list string) (rows : list Sqlite.row)
      (r : Sqlite.row) :
  In r (select_matches lower keywords rows) <->
  In r rows /\ exists kw, In kw keywords
    /\ PyStr.occurs_in (lower kw) (lower (PyStr.or_empty (Sqlite.row_name r))).
Proof.
  unfold select_matches, any_keyword_in.
  rewrite List.filter_In, existsb_exists.
  split; intros [H [kw [H1 H2]]]; (split; [exact H |]); exists kw;
    (split; [exact H1 |]); now apply str_in_spec.
Qed.

Variable repr : string -> string.

Lemma get_list_chats_no_lists (list_name : string) (w : World) :
  chat_lists_json w = Absent \/ chat_lists_json w = Holds [] ->
  get_list_chats lower repr list_name w = (Returns no_lists_defined, [LoadChatLists]).
Proof.
  intros [H|H]; unfold get_list_chats, bind, _load_chat_lists; rewrite H;
    reflexivity.
Qed.

Lemma get_list_chats_unreadable (list_name : string) (w : World) (e : exception) :
  chat_lists_json w = Unreadable e ->
  get_list_chats lower repr list_name w = (Raises e, [LoadChatLists]).
Proof.
  intros H. unfold get_list_chats, bind, _load_chat_lists. rewrite H. reflexivity.
Qed.

Lemma get_list_chats_unmatched (list_name : string) (w : World) (lists : chat_lists) :
  chat_lists_json w = Holds lists -> lists <> [] ->
  next_matching_key lower lists list_name = None ->
  get_list_chats lower repr list_name w
  = (Returns (not_found list_name lists), [LoadChatLists]).
Proof.
  intros H Hne Hk. unfold get_list_chats, bind, _load_chat_lists. rewrite H.
  destruct lists as [|p rest]; [congruence |]. cbn [dict_truthy negb].
  rewrite Hk. reflexivity.
Qed.

Lemma get_list_chats_empty_label (list_name : string) (w : World) (lists : chat_lists) :
  chat_lists_json w = Holds lists ->
  next_matching_key lower lists list_name = Some "" ->
  get_list_chats lower repr list_name w
  = (Returns (not_found list_name lists), [LoadChatLists]).
Proof.
  intros H Hk. unfold get_list_chats, bind, _load_chat_lists. rewrite H.
  apply next_matching_key_Some in Hk as Hin. destruct Hin as [Hin _].
  rewrite (dict_truthy_keys _ _ Hin). cbn [negb]. rewrite Hk. reflexivity.
Qed.

(** Once the lookup has found a non-empty label, the store is read once
    and the reply is made from the matching rows. *)
Lemma get_list_chats_matched (list_name : string) (w : World) (lists : chat_lists)
      (k : string) :
  chat_lists_json w = Holds lists ->
  next_matching_key lower lists list_name = Some k -> k <> "" ->
  exists keywords,
    dict_getitem lists k = Returns keywords /\ In (k, keywords) lists /\
    get_list_chats lower repr list_name w
    = (Returns match messages_db w with
               | inl e => database_error e
               | inr db =>
                   match select_matches lower keywords (Sqlite.named_chats db) with
                   | [] => no_chats_found repr k keywords
                   | m :: ms => listing k (m :: ms)
                   end
               end,
       [LoadChatLists; StoreRead]).
Proof.
  intros H Hk Hne.
  apply next_matching_key_Some in Hk as Hin. destruct Hin as [Hin _].
  destruct (dict_getitem_key _ _ Hin) as [keywords [Hget Hmem]].
  exists keywords. split; [exact Hget |]. split; [exact Hmem |].
  unfold get_list_chats, bind, _load_chat_lists, lift, fetch_named_chats.
  rewrite H, (dict_truthy_keys _ _ Hin). cbn [negb]. rewrite Hk.
  apply truthy_true_iff in Hne. rewrite Hne. cbn [negb]. rewrite Hget.
  destruct (messages_db w) as [e|db]; [reflexivity |].
  destruct (select_matches lower keywords (Sqlite.named_chats db)); reflexivity.
Qed.

End Lookup.

(** ** The keyword list classifier *)

Lemma join_In_occurs (sep x : string) (l : list string) :
  In x l -> PyStr.occurs_in x (PyStr.join sep l).
Proof.
  unfold PyStr.join, PyStr.occurs_in.
  induction l as [|y l IH]; [intros [] |].
  intros [->|H].
  - destruct l as [|z l]; simpl.
    + exists "", "". now rewrite append_nil_l, append_empty_r.
    + exists "", (sep +:+ String.concat sep (z :: l)). reflexivity.
  - destruct l as [|z l]; [destruct H |].
    destruct (IH H) as [pre [post E]].
    exists (y +:+ sep +:+ pre), post.
    change (String.concat sep (y :: z :: l))
      with (y +:+ sep +:+ String.concat sep (z :: l)).
    rewrite E, !append_assoc. reflexivity.
Qed.

Lemma occurs_in_append_r (x pre s : string) :
  PyStr.occurs_in x s -> PyStr.occurs_in x (pre +:+ s).
Proof.
  intros [a [b ->]]. exists (pre +:+ a), b. now rewrite append_assoc.
Qed.

Lemma listing_lines (k : string) (matches : list Sqlite.row) :
  listing k matches
  = PyStr.join PyStr.nl
      ((clipboard_mark +:+ " " +:+ k +:+ " ("
          +:+ PyStr.str_of_nat (List.length matches) +:+ " chats)" +:+ PyStr.nl)
       :: List.map entry matches).
Proof. reflexivity. Qed.

Lemma preview_short (s : string) :
  (PyStr.len s <= preview_budget)%nat -> preview (Some s) = s.
Proof.
  intros H. unfold preview. apply Nat.ltb_ge in H.
  rewrite H, andb_false_r. apply or_empty_Some.
Qed.

Lemma preview_long (s : string) :
  (preview_budget < PyStr.len s)%nat ->
  preview (Some s) = PyStr.slice_to preview_budget s +:+ "...".
Proof.
  intros H. unfold preview.
  assert (PyStr.truthy s = true) as ->.
  { destruct s; [simpl in H; unfold preview_budget in H; lia | reflexivity]. }
  apply Nat.ltb_lt in H. rewrite H. reflexivity.
Qed.

(** ** Moments and their stored texts *)

Section Calendar.

Local Open Scope Z_scope.

Lemma march_first_step (y : Z) :
  Chronology.march_first y - Chronology.march_first (y - 1)
  = 365 + (if Chronology.leap y then 1 else 0).
Proof.
  unfold Chronology.march_first, Chronology.leap.
  assert (y = 400 * (y / 400) + y mod 400) as Hy by (apply Z.div_mod; lia).
  pose proof (Z.mod_pos_bound y 400 ltac:(lia)) as Hr.
  set (q := y / 400) in *. set (r := y mod 400) in *. clearbody q r.
  assert (y mod 4 = r mod 4) as ->.
  { rewrite Hy, Z.add_comm. replace (400 * q) with ((100 * q) * 4) by lia.
    apply Z.mod_add. lia. }
  assert (y mod 100 = r mod 100) as ->.
  { rewrite Hy, Z.add_comm. replace (400 * q) with ((4 * q) * 100) by lia.
    apply Z.mod_add. lia. }
  destruct (Z.eq_dec r 0) as [E | E].
  - assert ((y - 1) / 400 = q - 1) as ->.
    { symmetry. apply (Z.div_unique _ _ _ 399); lia. }
    rewrite E in *. cbn. replace (y - q * 400) with 0 by lia.
    replace (y - 1 - (q - 1) * 400) with 399 by lia.
    rewrite orb_true_r. Z.to_euclidean_division_equations. lia.
  - assert ((y - 1) / 400 = q) as ->.
    { symmetry. apply (Z.div_unique _ _ _ (r - 1)); lia. }
    replace (y - q * 400) with r by lia.
    replace (y - 1 - q * 400) with (r - 1) by lia.
    assert ((r =? 0) = false) as -> by now apply Z.eqb_neq.
    rewrite orb_false_r.
    destruct (r mod 4 =? 0) eqn:E4; destruct (r mod 100 =? 0) eqn:E100; cbn;
      rewrite ?Z.eqb_eq, ?Z.eqb_neq in *;
      Z.to_euclidean_division_equations; lia.
Qed.

Lemma march_first_le (y1 y2 : Z) :
  y1 <= y2 -> Chronology.march_first y1 <= Chronology.march_first y2.
Proof.
  intros H. replace y2 with (y1 + Z.of_nat (Z.to_nat (y2 - y1))) by lia.
  induction (Z.to_nat (y2 - y1)) as [|n IH].
  - replace (y1 + Z.of_nat 0) with y1 by lia. lia.
  - pose proof (march_first_step (y1 + Z.of_nat (S n))) as Hs.
    replace (y1 + Z.of_nat (S n) - 1) with (y1 + Z.of_nat n) in Hs by lia.
    destruct (Chronology.leap (y1 + Z.of_nat (S n))); lia.
Qed.

Lemma days_from_civil_march (y m d : Z) :
  Chronology.days_from_civil y m d
  = Chronology.march_first (if m <=? 2 then y - 1 else y)
    + (153 * (if m <=? 2 then m + 9 else m - 3) + 2) / 5 + d - 1 - 719468.
Proof. unfold Chronology.days_from_civil, Chronology.march_first. cbv zeta. lia. Qed.

Lemma month_cases (m : Z) :
  1 <= m <= 12 ->
  m = 1 \/ m = 2 \/ m = 3 \/ m = 4 \/ m = 5 \/ m = 6 \/ m = 7 \/ m = 8
  \/ m = 9 \/ m = 10 \/ m = 11 \/ m = 12.
Proof. lia. Qed.

(** The days of the year [y] lie from its first of January to the day
    before the next first of January. *)
Lemma days_from_civil_in_year (y m d : Z) :
  Chronology.valid_day y m d ->
  Chronology.days_from_civil y 1 1 <= Chronology.days_from_civil y m d
  /\ Chronology.days_from_civil y m d < Chronology.days_from_civil (y + 1) 1 1.
Proof.
  intros [Hm Hd]. rewrite !days_from_civil_march.
  pose proof (march_first_step y) as Hs.
  replace (y + 1 - 1) with y by lia.
  unfold Chronology.days_in_month in Hd.
  apply month_cases in Hm.
  repeat (destruct Hm as [-> | Hm]); try subst m; cbn in Hd |- *;
    destruct (Chronology.leap y); Z.to_euclidean_division_equations; lia.
Qed.

Lemma days_from_civil_year_le (y1 y2 : Z) :
  y1 <= y2 -> Chronology.days_from_civil y1 1 1 <= Chronology.days_from_civil y2 1 1.
Proof.
  intros H. rewrite !days_from_civil_march. cbn.
  pose proof (march_first_le (y1 - 1) (y2 - 1)). lia.
Qed.

Lemma days_from_civil_month_lt (y m1 d1 m2 d2 : Z) :
  Chronology.valid_day y m1 d1 -> Chronology.valid_day y m2 d2 -> m1 < m2 ->
  Chronology.days_from_civil y m1 d1 < Chronology.days_from_civil y m2 d2.
Proof.
  intros [Hm1 Hd1] [Hm2 Hd2] Hlt. rewrite !days_from_civil_march.
  pose proof (march_first_step y) as Hs.
  unfold Chronology.days_in_month in Hd1.
  apply month_cases in Hm1. apply month_cases in Hm2.
  repeat (destruct Hm1 as [-> | Hm1]); try subst m1;
    repeat (destruct Hm2 as [-> | Hm2]); try subst m2; try lia;
    cbn in Hd1 |- *; destruct (Chronology.leap y); Z.to_euclidean_division_equations; lia.
Qed.

(** The day count grows with the date. *)
Lemma days_from_civil_lt (y1 m1 d1 y2 m2 d2 : Z) :
  Chronology.valid_day y1 m1 d1 -> Chronology.valid_day y2 m2 d2 ->
  y1 < y2 \/ (y1 = y2 /\ (m1 < m2 \/ (m1 = m2 /\ d1 < d2))) ->
  Chronology.days_from_civil y1 m1 d1 < Chronology.days_from_civil y2 m2 d2.
Proof.
  intros H1 H2 [Hy | [-> [Hm | [-> Hd]]]].
  - pose proof (days_from_civil_in_year _ _ _ H1).
    pose proof (days_from_civil_in_year _ _ _ H2).
    pose proof (days_from_civil_year_le (y1 + 1) y2). lia.
  - now apply days_from_civil_month_lt.
  - rewrite !days_from_civil_march. lia.
Qed.

(** Times of day on one clock compare as their fields do, read as one
    decimal number. *)
Lemma local_seconds_le (y1 m1 d1 h1 n1 s1 y2 m2 d2 h2 n2 s2 : Z) :
  Chronology.valid_day y1 m1 d1 -> Chronology.valid_day y2 m2 d2 ->
  0 <= h1 <= 23 -> 0 <= n1 <= 59 -> 0 <= s1 <= 59 ->
  0 <= h2 <= 23 -> 0 <= n2 <= 59 -> 0 <= s2 <= 59 ->
  ((((y1 * 100 + m1) * 100 + d1) * 100 + h1) * 100 + n1) * 100 + s1
  <= ((((y2 * 100 + m2) * 100 + d2) * 100 + h2) * 100 + n2) * 100 + s2 ->
  Chronology.local_seconds y1 m1 d1 h1 n1 s1
  <= Chronology.local_seconds y2 m2 d2 h2 n2 s2.
Proof.
  intros V1 V2 Hh1 Hn1 Hs1 Hh2 Hn2 Hs2 Hk.
  unfold Chronology.local_seconds.
  assert (1 <= d1 <= 31 /\ 1 <= d2 <= 31 /\ 1 <= m1 <= 12 /\ 1 <= m2 <= 12) as Hb.
  { destruct V1 as [? Hd1], V2 as [? Hd2].
    unfold Chronology.days_in_month in Hd1, Hd2.
    repeat match goal with
           | H : context [if ?c then _ else _] |- _ => destruct c
           end; lia. }
  assert ((y1 < y2 \/ (y1 = y2 /\ (m1 < m2 \/ (m1 = m2 /\ d1 < d2))))
          \/ (y1 = y2 /\ m1 = m2 /\ d1 = d2
              /\ h1 * 3600 + n1 * 60 + s1 <= h2 * 3600 + n2 * 60 + s2)) as [Hlt | Heq]
      by lia.
  - pose proof (days_from_civil_lt _ _ _ _ _ _ V1 V2 Hlt). lia.
  - destruct Heq as [-> [-> [-> Heq]]]. lia.
Qed.

End Calendar.

Section TextOrder.

Local Open Scope Z_scope.

Lemma digit_code (c : ascii) (a : Z) :
  Chronology.digit c = Some a -> Chronology.code c = a + 48 /\ 0 <= a <= 9.
Proof.
  unfold Chronology.digit, Chronology.code. cbv zeta.
  destruct (_ && _) eqn:E; [| discriminate].
  intros [= <-]. apply andb_true_iff in E as [E1 E2].
  apply Z.leb_le in E1, E2. lia.
Qed.

Lemma is_char_eq (c : ascii) (n : nat) :
  Chronology.is_char c n = true -> c = ascii_of_nat n.
Proof.
  unfold Chronology.is_char. intros H. apply Nat.eqb_eq in H.
  rewrite <- H. symmetry. apply ascii_nat_embedding.
Qed.

Lemma in_range_true (lo x hi : Z) :
  Chronology.in_range lo x hi = true -> lo <= x <= hi.
Proof.
  unfold Chronology.in_range. intros H. apply andb_true_iff in H as [H1 H2].
  apply Z.leb_le in H1, H2. lia.
Qed.

(** Byte-wise comparison of two texts, one character at a time. *)
Lemma string_leb_cons (c1 : ascii) (s1 : string) (c2 : ascii) (s2 : string) :
  String.leb (String c1 s1) (String c2 s2) = true ->
  Chronology.code c1 < Chronology.code c2
  \/ (c1 = c2 /\ String.leb s1 s2 = true).
Proof.
  unfold String.leb. cbn [String.compare].
  destruct (Ascii.compare c1 c2) eqn:E.
  - intros H. right. split; [now apply Ascii.compare_eq_iff | exact H].
  - intros _. left. unfold Ascii.compare in E. apply N.compare_lt_iff in E.
    unfold Chronology.code, nat_of_ascii. rewrite !N_nat_Z.
    now apply N2Z.inj_lt.
  - discriminate.
Qed.


Lemma number_two (c1 c2 : ascii) (x : Z) :
  Chronology.number 0 [c1; c2] = Some x ->
  x = Chronology.two c1 c2
  /\ 48 <= Chronology.code c1 <= 57 /\ 48 <= Chronology.code c2 <= 57.
Proof.
  cbn [Chronology.number].
  destruct (Chronology.digit c1) as [a1|] eqn:E1; [| discriminate].
  destruct (Chronology.digit c2) as [a2|] eqn:E2; [| discriminate].
  intros [= <-]. apply digit_code in E1, E2. unfold Chronology.two. lia.
Qed.

Lemma number_four (c1 c2 c3 c4 : ascii) (x : Z) :
  Chronology.number 0 [c1; c2; c3; c4] = Some x ->
  x = Chronology.four c1 c2 c3 c4
  /\ 48 <= Chronology.code c1 <= 57 /\ 48 <= Chronology.code c2 <= 57
  /\ 48 <= Chronology.code c3 <= 57 /\ 48 <= Chronology.code c4 <= 57.
Proof.
  cbn [Chronology.number].
  destruct (Chronology.digit c1) as [a1|] eqn:E1; [| discriminate].
  destruct (Chronology.digit c2) as [a2|] eqn:E2; [| discriminate].
  destruct (Chronology.digit c3) as [a3|] eqn:E3; [| discriminate].
  destruct (Chronology.digit c4) as [a4|] eqn:E4; [| discriminate].
  intros [= <-]. apply digit_code in E1, E2, E3, E4.
  unfold Chronology.four, Chronology.two. lia.
Qed.

(** What a text that spells a moment looks like. *)
Lemma instant_of_text_inv (s : string) (z : Z) :
  Chronology.instant_of_text s = Some z ->
  exists (y1 y2 y3 y4 m1 m2 d1 d2 h1 h2 n1 n2 s1 s2 : ascii) (tail : string)
         (ahead : Z),
    s = String y1 (String y2 (String y3 (String y4 (String "-"
        (String m1 (String m2 (String "-"
        (String d1 (String d2 (String " "
        (String h1 (String h2 (String ":"
        (String n1 (String n2 (String ":"
        (String s1 (String s2 tail))))))))))))))))))
    /\ Chronology.utc_offset s = tail
    /\ Chronology.seconds_ahead (list_ascii_of_string tail) = Some ahead
    /\ (48 <= Chronology.code y1 <= 57 /\ 48 <= Chronology.code y2 <= 57
        /\ 48 <= Chronology.code y3 <= 57 /\ 48 <= Chronology.code y4 <= 57)
    /\ (48 <= Chronology.code m1 <= 57 /\ 48 <= Chronology.code m2 <= 57)
    /\ (48 <= Chronology.code d1 <= 57 /\ 48 <= Chronology.code d2 <= 57)
    /\ (48 <= Chronology.code h1 <= 57 /\ 48 <= Chronology.code h2 <= 57)
    /\ (48 <= Chronology.code n1 <= 57 /\ 48 <= Chronology.code n2 <= 57)
    /\ (48 <= Chronology.code s1 <= 57 /\ 48 <= Chronology.code s2 <= 57)
    /\ Chronology.valid_day (Chronology.four y1 y2 y3 y4) (Chronology.two m1 m2)
         (Chronology.two d1 d2)
    /\ 0 <= Chronology.two h1 h2 <= 23
    /\ 0 <= Chronology.two n1 n2 <= 59
    /\ 0 <= Chronology.two s1 s2 <= 59
    /\ z = Chronology.local_seconds
             (Chronology.four y1 y2 y3 y4) (Chronology.two m1 m2)
             (Chronology.two d1 d2) (Chronology.two h1 h2)
             (Chronology.two n1 n2) (Chronology.two s1 s2) - ahead.
Proof.
  unfold Chronology.instant_of_text.
  assert (s = string_of_list_ascii (list_ascii_of_string s)) as Hs
      by (symmetry; apply string_of_list_ascii_of_string).
  revert Hs. generalize (list_ascii_of_string s). intros l.
  destruct l
    as [|y1 [|y2 [|y3 [|y4 [|p1 [|m1 [|m2 [|p2 [|d1 [|d2 [|p3 [|h1 [|h2 [|p4 [|n1 [|n2 [|p5 [|s1 [|s2 [|sg [|o1 [|o2 [|p6 [|o3 [|o4 [|? ?]]]]]]]]]]]]]]]]]]]]]]]]]];
    intros Hs H; try discriminate H.
  subst s.
  match type of H with
  | (if ?c then _ else _) = _ => destruct c eqn:Hsep; [| discriminate H]
  end.
  repeat match type of Hsep with
         | _ && _ = true => apply andb_true_iff in Hsep as [Hsep ?]
         end.
  repeat match goal with
         | H : Chronology.is_char _ _ = true |- _ => apply is_char_eq in H; subst
         end.
  destruct (Chronology.number 0 [y1; y2; y3; y4]) as [y|] eqn:Ey; [| discriminate H].
  destruct (Chronology.number 0 [m1; m2]) as [m|] eqn:Em; [| discriminate H].
  destruct (Chronology.number 0 [d1; d2]) as [d|] eqn:Ed; [| discriminate H].
  destruct (Chronology.number 0 [h1; h2]) as [h|] eqn:Eh; [| discriminate H].
  destruct (Chronology.number 0 [n1; n2]) as [n|] eqn:En; [| discriminate H].
  destruct (Chronology.number 0 [s1; s2]) as [sec|] eqn:Esec; [| discriminate H].
  destruct (Chronology.seconds_ahead [sg; o1; o2; p6; o3; o4]) as [ahead|] eqn:Eahead;
    [| discriminate H].
  match type of H with
  | (if ?c then _ else _) = _ => destruct c eqn:Hrange; [| discriminate H]
  end.
  injection H as <-.
  repeat match type of Hrange with
         | _ && _ = true => apply andb_true_iff in Hrange as [Hrange ?]
         end.
  repeat match goal with
         | H : Chronology.in_range _ _ _ = true |- _ => apply in_range_true in H
         end.
  apply number_four in Ey as [-> Hy].
  apply number_two in Em as [-> Hm], Ed as [-> Hd], Eh as [-> Hh],
      En as [-> Hn], Esec as [-> Hsec].
  exists y1, y2, y3, y4, m1, m2, d1, d2, h1, h2, n1, n2, s1, s2,
    (string_of_list_ascii [sg; o1; o2; p6; o3; o4]), ahead.
  split; [reflexivity |]. split; [reflexivity |].
  split; [rewrite list_ascii_of_string_of_list_ascii; exact Eahead |].
  unfold Chronology.valid_day. repeat split; tauto || lia.
Qed.

(** Two texts that spell moments on clocks at one UTC offset compare
    byte-wise as their moments do. *)
Lemma instant_of_text_le (s t : string) (zs zt : Z) :
  Chronology.instant_of_text s = Some zs ->
  Chronology.instant_of_text t = Some zt ->
  Chronology.utc_offset s = Chronology.utc_offset t ->
  String.leb t s = true ->
  zt <= zs.
Proof.
  intros Hs Ht Hoff Hleb.
  apply instant_of_text_inv in Hs
    as (y1 & y2 & y3 & y4 & m1 & m2 & d1 & d2 & h1 & h2 & n1 & n2 & s1 & s2
        & tail & ahead & Es & Eo & Ea & Hy & Hm & Hd & Hh & Hn & Hsec
        & Vd & Vh & Vn & Vs & ->).
  apply instant_of_text_inv in Ht
    as (y1' & y2' & y3' & y4' & m1' & m2' & d1' & d2' & h1' & h2' & n1' & n2'
        & s1' & s2' & tail' & ahead' & Et & Eo' & Ea' & Hy' & Hm' & Hd' & Hh'
        & Hn' & Hsec' & Vd' & Vh' & Vn' & Vs' & ->).
  assert (tail' = tail) as -> by congruence.
  assert (ahead' = ahead) as -> by congruence.
  subst s t.
  apply Z.sub_le_mono_r.
  repeat (apply string_leb_cons in Hleb as [Hlt | [? Hleb]];
          [ apply local_seconds_le; try assumption;
            unfold Chronology.four, Chronology.two; lia
          | subst ]).
  apply local_seconds_le; try assumption. lia.
Qed.

End TextOrder.

Lemma sorted_before_all (R : Sqlite.row -> Sqlite.row -> Prop)
      (l1 l2 : list Sqlite.row) (a : Sqlite.row) :
  StronglySorted R (l1 ++ a :: l2) -> List.Forall (R a) l2.
Proof.
  induction l1 as [|x l1 IH]; simpl; intros H.
  - now apply StronglySorted_inv in H as [_ H].
  - apply StronglySorted_inv in H as [H _]. now apply IH.
Qed.

Section Classifier.

Variable lower : string -> string.
Variable repr : string -> string.

Lemma get_list_chats_trace (list_name : string) (w : World) :
  trace (get_list_chats lower repr list_name) w = [LoadChatLists]
  \/ trace (get_list_chats lower repr list_name) w = [LoadChatLists; StoreRead].
Proof.
  unfold trace, get_list_chats, bind, _load_chat_lists, lift, fetch_named_chats.
  destruct (chat_lists_json w) as [|lists|e]; [now left | | now left].
  destruct (dict_truthy lists); cbn [negb]; [| now left].
  destruct (next_matching_key lower lists list_name) as [k|]; [| now left].
  destruct (PyStr.truthy k); cbn [negb]; [| now left].
  destruct (dict_getitem lists k) as [keywords|e]; [| now left].
  right. destruct (messages_db w) as [e|db]; [reflexivity |].
  destruct (select_matches lower keywords (Sqlite.named_chats db)); reflexivity.
Qed.

Lemma show_all_lists_trace (w : World) :
  trace show_all_lists w = [LoadChatLists].
Proof.
  unfold trace, show_all_lists, bind, _load_chat_lists, get_path.
  destruct (chat_lists_json w) as [|lists|e]; [reflexivity | | reflexivity].
  destruct (dict_truthy lists); reflexivity.
Qed.

(** C1: once the list is resolved and the store is read, the reply is
    made from the matches, and a fetched chat is among the matches
    exactly when one of the keywords of the list, lowercased, occurs in
    its lowercased display name. *)
Theorem C1_membership_by_keyword_substring
        (list_name : string) (w : World) (lists : chat_lists) (k : string)
        (db : Sqlite.database) :
  chat_lists_json w = Holds lists ->
  next_matching_key lower lists list_name = Some k ->
  PyStr.truthy k = true ->
  messages_db w = inr db ->
  exists keywords,
    dict_getitem lists k = Returns keywords /\
    let matches := select_matches lower keywords (Sqlite.named_chats db) in
    reply (get_list_chats lower repr list_name) w
    = Returns match matches with
              | [] => no_chats_found repr k keywords
              | _ :: _ => listing k matches
              end /\
    (forall r, In r matches -> In r (Sqlite.named_chats db)) /\
    (forall jid name last_time last_msg,
        In (jid, Some name, last_time, last_msg) (Sqlite.named_chats db) ->
        (In (jid, Some name, last_time, last_msg) matches <->
         exists kw, In kw keywords /\ PyStr.occurs_in (lower kw) (lower name))) /\
    (forall c name,
        In c (Sqlite.chats db) -> Sqlite.c_name c = Some name -> name <> "" ->
        ((exists last_msg,
             In (Sqlite.c_jid c, Some name, Sqlite.c_last_message_time c, last_msg)
                matches) <->
         exists kw, In kw keywords /\ PyStr.occurs_in (lower kw) (lower name))).
Proof.
  intros Hcfg Hk Hne Hdb. apply truthy_true_iff in Hne.
  destruct (get_list_chats_matched lower repr list_name w lists k Hcfg Hk Hne)
    as [keywords [Hget [_ Hrun]]].
  exists keywords. split; [exact Hget |]. cbn zeta.
  assert (forall jid name last_time last_msg,
             In (jid, Some name, last_time, last_msg) (Sqlite.named_chats db) ->
             (In (jid, Some name, last_time, last_msg)
                 (select_matches lower keywords (Sqlite.named_chats db)) <->
              exists kw, In kw keywords
                         /\ PyStr.occurs_in (lower kw) (lower name))) as Hrow.
  { intros jid name last_time last_msg Hin.
    rewrite select_matches_In. cbn [Sqlite.row_name]. rewrite or_empty_Some.
    tauto. }
  split; [| split; [| split]].
  - unfold reply. rewrite Hrun, Hdb. cbn [fst].
    destruct (select_matches lower keywords (Sqlite.named_chats db)); reflexivity.
  - intros r Hr. now apply select_matches_In in Hr.
  - exact Hrow.
  - intros c name Hc Hn Hnm. split.
    + intros [last_msg Hin].
      apply (Hrow _ _ _ _ (proj1 (proj1 (select_matches_In _ _ _ _) Hin))).
      exact Hin.
    + intros Hkw.
      destruct (named_chats_complete db c name Hc Hn Hnm) as [last_msg Hin].
      exists last_msg. now apply Hrow.
Qed.

(** C2 (amended): with a non-empty configuration, a [list_name] that no
    label equals up to case gets the not-found message, which carries
    every label of the configuration, and the store is not read; with an
    absent or empty configuration the reply is the no-lists message, and
    the store is not read either. *)
Theorem C2_unknown_list_not_found (list_name : string) (w : World) :
  (forall lists,
      chat_lists_json w = Holds lists -> lists <> [] ->
      (forall label, In label (dict_keys lists) -> lower label <> lower list_name) ->
      reply (get_list_chats lower repr list_name) w
      = Returns ("List '" +:+ list_name +:+ "' not found. Available lists: "
                   +:+ PyStr.join ", " (dict_keys lists))
      /\ (forall label, In label (dict_keys lists) ->
            PyStr.occurs_in label
              ("List '" +:+ list_name +:+ "' not found. Available lists: "
                 +:+ PyStr.join ", " (dict_keys lists)))
      /\ count_events is_store_read (trace (get_list_chats lower repr list_name) w) = 0)
  /\ (chat_lists_json w = Absent \/ chat_lists_json w = Holds [] ->
      reply (get_list_chats lower repr list_name) w = Returns no_lists_defined
      /\ count_events is_store_read (trace (get_list_chats lower repr list_name) w) = 0).
Proof.
  split.
  - intros lists Hcfg Hne Hnone. apply next_matching_key_None in Hnone.
    unfold reply, trace.
    rewrite (get_list_chats_unmatched lower repr list_name w lists Hcfg Hne Hnone).
    split; [reflexivity |]. split; [| reflexivity].
    intros label Hin. rewrite <- !append_assoc.
    apply occurs_in_append_r. now apply join_In_occurs.
  - intros H. unfold reply, trace.
    rewrite (get_list_chats_no_lists lower repr list_name w H). split; reflexivity.
Qed.

(** C3: every chat among the matches is a chat of the table whose display
    name is a non-empty string, whatever the keywords are. *)
Theorem C3_unnamed_chats_excluded
        (list_name : string) (w : World) (lists : chat_lists) (k : string)
        (db : Sqlite.database) :
  chat_lists_json w = Holds lists ->
  next_matching_key lower lists list_name = Some k ->
  PyStr.truthy k = true ->
  messages_db w = inr db ->
  exists keywords,
    dict_getitem lists k = Returns keywords /\
    let matches := select_matches lower keywords (Sqlite.named_chats db) in
    reply (get_list_chats lower repr list_name) w
    = Returns match matches with
              | [] => no_chats_found repr k keywords
              | _ :: _ => listing k matches
              end /\
    (forall jid name last_time last_msg,
        In (jid, name, last_time, last_msg) matches ->
        exists c n,
          In c (Sqlite.chats db) /\ Sqlite.c_jid c = jid
          /\ Sqlite.c_name c = Some n /\ name = Some n /\ n <> "") /\
    (forall jid last_time last_msg,
        ~ In (jid, None, last_time, last_msg) matches
        /\ ~ In (jid, Some "", last_time, last_msg) matches).
Proof.
  intros Hcfg Hk Hne Hdb. apply truthy_true_iff in Hne.
  destruct (get_list_chats_matched lower repr list_name w lists k Hcfg Hk Hne)
    as [keywords [Hget [_ Hrun]]].
  exists keywords. split; [exact Hget |]. cbn zeta.
  assert (forall jid name last_time last_msg,
             In (jid, name, last_time, last_msg)
                (select_matches lower keywords (Sqlite.named_chats db)) ->
             exists c n,
               In c (Sqlite.chats db) /\ Sqlite.c_jid c = jid
               /\ Sqlite.c_name c = Some n /\ name = Some n /\ n <> "") as Hnamed.
  { intros jid name last_time last_msg Hin.
    apply select_matches_In in Hin as [Hin _].
    apply named_chats_named in Hin as [c [n [H1 [H2 [H3 [H4 [H5 _]]]]]]].
    exists c, n. simpl in H4, H5. auto. }
  split; [| split].
  - unfold reply. rewrite Hrun, Hdb. cbn [fst].
    destruct (select_matches lower keywords (Sqlite.named_chats db)); reflexivity.
  - exact Hnamed.
  - intros jid last_time last_msg. split; intros Hin;
      apply Hnamed in Hin as [c [n [_ [_ [_ [E Hn]]]]]]; congruence.
Qed.

(** The lookup of a list: if some label equals [list_name] up to case and
    the first such label is not empty, that label alone decides the
    keywords, for every spelling of [list_name]. *)
Lemma lookup_by_name_case_insensitive
      (list_name : string) (w : World) (lists : chat_lists) (label : string) :
  chat_lists_json w = Holds lists ->
  In label (dict_keys lists) -> lower label = lower list_name ->
  exists k,
    next_matching_key lower lists list_name = Some k
    /\ lower k = lower list_name
    /\ (forall other, lower other = lower list_name ->
          next_matching_key lower lists other = Some k)
    /\ (k <> "" ->
        exists keywords,
          dict_getitem lists k = Returns keywords /\
          forall other, lower other = lower list_name ->
            get_list_chats lower repr other w
            = (Returns match messages_db w with
                       | inl e => database_error e
                       | inr db =>
                           match select_matches lower keywords
                                   (Sqlite.named_chats db) with
                           | [] => no_chats_found repr k keywords
                           | m :: ms => listing k (m :: ms)
                           end
                       end,
               [LoadChatLists; StoreRead])).
Proof.
  intros Hcfg Hin Heq.
  destruct (next_matching_key_first lower lists list_name label Hin Heq)
    as [before [k [after [_ [Hk [Hlow _]]]]]].
  exists k. split; [exact Hk |]. split; [exact Hlow |]. split.
  - intros other Ho. now rewrite (next_matching_key_case lower lists other list_name Ho).
  - intros Hne.
    destruct (get_list_chats_matched lower repr list_name w lists k Hcfg Hk Hne)
      as [keywords [Hget [_ _]]].
    exists keywords. split; [exact Hget |].
    intros other Ho.
    assert (next_matching_key lower lists other = Some k) as Hk'.
    { now rewrite (next_matching_key_case lower lists other list_name Ho). }
    destruct (get_list_chats_matched lower repr other w lists k Hcfg Hk' Hne)
      as [keywords' [Hget' [_ Hrun]]].
    assert (keywords' = keywords) as -> by congruence.
    exact Hrun.
Qed.

(** C5 (amended): when some chat matches, the reply lists the matches in
    the order of the list [matches], which descends in the comparison of
    the stored last-message times: texts first, in descending byte-wise
    order, then integers in descending numeric order, then the chats
    without a time.  The listing is most recent first when the stored
    times are of one kind: no text among them, or no integer among them
    and one UTC offset in all the texts that spell a moment. *)
Theorem C5_listed_by_stored_time_descending
        (list_name : string) (w : World) (lists : chat_lists) (k : string)
        (db : Sqlite.database) :
  chat_lists_json w = Holds lists ->
  next_matching_key lower lists list_name = Some k ->
  PyStr.truthy k = true ->
  messages_db w = inr db ->
  exists keywords,
    dict_getitem lists k = Returns keywords /\
    let matches := select_matches lower keywords (Sqlite.named_chats db) in
    matches <> [] ->
    reply (get_list_chats lower repr list_name) w
    = Returns (PyStr.join PyStr.nl
                 ((clipboard_mark +:+ " " +:+ k +:+ " ("
                     +:+ PyStr.str_of_nat (List.length matches) +:+ " chats)"
                     +:+ PyStr.nl)
                  :: List.map entry matches)) /\
    (forall a b,
        Chronology.listed_before matches a b ->
        match Sqlite.row_time a, Sqlite.row_time b with
        | Sqlite.Text s, Sqlite.Text t => String.leb t s = true
        | Sqlite.Integer x, Sqlite.Integer y => (y <= x)%Z
        | Sqlite.Text _, Sqlite.Integer _ => True
        | Sqlite.Text _, Sqlite.Null => True
        | Sqlite.Integer _, Sqlite.Null => True
        | Sqlite.Null, Sqlite.Null => True
        | Sqlite.Integer _, Sqlite.Text _ => False
        | Sqlite.Null, Sqlite.Integer _ => False
        | Sqlite.Null, Sqlite.Text _ => False
        end) /\
    (Chronology.stored_alike matches -> Chronology.most_recent_first matches).
Proof.
  intros Hcfg Hk Hne Hdb. apply truthy_true_iff in Hne.
  destruct (get_list_chats_matched lower repr list_name w lists k Hcfg Hk Hne)
    as [keywords [Hget [_ Hrun]]].
  exists keywords. split; [exact Hget |]. cbn zeta. intros Hm.
  assert (forall a b,
             Chronology.listed_before
               (select_matches lower keywords (Sqlite.named_chats db)) a b ->
             Sqlite.leb (Sqlite.row_time b) (Sqlite.row_time a) = true) as Hord.
  { intros a b [l1 [l2 [l3 Hsplit]]].
    assert (StronglySorted Sqlite.time_desc
              (select_matches lower keywords (Sqlite.named_chats db))) as Hs
        by apply filter_sorted, order_by_time_desc_sorted.
    rewrite Hsplit in Hs. apply sorted_before_all in Hs.
    rewrite List.Forall_forall in Hs. apply Hs.
    apply in_app_iff. right. now left. }
  split; [| split].
  - unfold reply. rewrite Hrun, Hdb. cbn [fst].
    destruct (select_matches lower keywords (Sqlite.named_chats db));
      [congruence | reflexivity].
  - intros a b Hab. specialize (Hord a b Hab).
    destruct (Sqlite.row_time a), (Sqlite.row_time b); simpl in Hord;
      try discriminate Hord; try exact I; [now apply Z.leb_le | exact Hord].
  - intros Halike a b ta tb Hab Ha Hb.
    specialize (Hord a b Hab).
    destruct Hab as [l1 [l2 [l3 Hsplit]]].
    assert (In a (select_matches lower keywords (Sqlite.named_chats db))) as Ia.
    { rewrite Hsplit. apply in_app_iff. right. now left. }
    assert (In b (select_matches lower keywords (Sqlite.named_chats db))) as Ib.
    { rewrite Hsplit. apply in_app_iff. right. right.
      apply in_app_iff. right. now left. }
    destruct Halike as [Hnotext | [Hnoint [off Hoff]]].
    + destruct (Sqlite.row_time a) as [| x | s] eqn:Ea;
        [discriminate Ha | | now destruct (Hnotext a s Ia)].
      destruct (Sqlite.row_time b) as [| y | t] eqn:Eb;
        [discriminate Hb | | now destruct (Hnotext b t Ib)].
      simpl in Ha, Hb, Hord. injection Ha as <-. injection Hb as <-.
      now apply Z.leb_le.
    + destruct (Sqlite.row_time a) as [| x | s] eqn:Ea;
        [discriminate Ha | now destruct (Hnoint a x Ia) |].
      destruct (Sqlite.row_time b) as [| y | t] eqn:Eb;
        [discriminate Hb | now destruct (Hnoint b y Ib) |].
      simpl in Ha, Hb, Hord.
      apply (instant_of_text_le s t ta tb Ha Hb); [| exact Hord].
      rewrite (Hoff a s ta Ia Ea Ha). symmetry. exact (Hoff b t tb Ib Eb Hb).
Qed.

(** C6 (amended): when some chat matches, the reply is the header line
    followed by one entry per match; an entry has two lines, the display
    name with the last-activity time and then the preview, and does not
    carry the identifier; a last message longer than the budget of 60
    characters is cut to its first 60 characters followed by ["..."], a
    shorter one is the preview as it is, and a missing one gives the empty
    preview. *)
Theorem C6_entry_and_preview
        (list_name : string) (w : World) (lists : chat_lists) (k : string)
        (db : Sqlite.database) :
  chat_lists_json w = Holds lists ->
  next_matching_key lower lists list_name = Some k ->
  PyStr.truthy k = true ->
  messages_db w = inr db ->
  exists keywords,
    dict_getitem lists k = Returns keywords /\
    let matches := select_matches lower keywords (Sqlite.named_chats db) in
    (matches <> [] ->
     reply (get_list_chats lower repr list_name) w
     = Returns (PyStr.join PyStr.nl
                  ((clipboard_mark +:+ " " +:+ k +:+ " ("
                      +:+ PyStr.str_of_nat (List.length matches) +:+ " chats)"
                      +:+ PyStr.nl)
                   :: List.map entry matches))) /\
    (forall jid name last_time last_msg,
        In (jid, Some name, last_time, last_msg) matches ->
        entry (jid, Some name, last_time, last_msg)
        = bullet_mark +:+ " " +:+ name +:+ "  [" +:+ format_value last_time +:+ "]"
            +:+ PyStr.nl +:+ "  " +:+ preview last_msg) /\
    preview None = "" /\
    (forall s, (PyStr.len s <= 60)%nat -> preview (Some s) = s) /\
    (forall s, (60 < PyStr.len s)%nat ->
               preview (Some s) = PyStr.slice_to 60 s +:+ "..."
               /\ PyStr.len (PyStr.slice_to 60 s) = 60%nat
               /\ exists rest, s = PyStr.slice_to 60 s +:+ rest).
Proof.
  intros Hcfg Hk Hne Hdb. apply truthy_true_iff in Hne.
  destruct (get_list_chats_matched lower repr list_name w lists k Hcfg Hk Hne)
    as [keywords [Hget [_ Hrun]]].
  exists keywords. split; [exact Hget |]. cbn zeta.
  split; [| split; [| split; [| split]]].
  - intros Hm. unfold reply. rewrite Hrun, Hdb. cbn [fst].
    destruct (select_matches lower keywords (Sqlite.named_chats db));
      [congruence | reflexivity].
  - reflexivity.
  - reflexivity.
  - exact preview_short.
  - intros s Hs. split; [exact (preview_long s Hs) |]. split.
    + unfold PyStr.len, PyStr.slice_to. apply substring_0_length.
      unfold PyStr.len in Hs. lia.
    + apply substring_0_prefix.
Qed.

(** C8: the store is read at most once in a call; when the read fails
    with an error [e], the call returns the text ["Database error: e"] as
    its value, after exactly one read. *)
Theorem C8_store_failure_returned (list_name : string) (w : World) :
  (count_events is_store_read (trace (get_list_chats lower repr list_name) w) <= 1)%nat
  /\ forall lists k e,
      chat_lists_json w = Holds lists ->
      next_matching_key lower lists list_name = Some k ->
      PyStr.truthy k = true ->
      messages_db w = inl e ->
      reply (get_list_chats lower repr list_name) w
      = Returns ("Database error: " +:+ e)
      /\ trace (get_list_chats lower repr list_name) w = [LoadChatLists; StoreRead]
      /\ count_events is_store_read (trace (get_list_chats lower repr list_name) w)
         = 1%nat.
Proof.
  split.
  - destruct (get_list_chats_trace list_name w) as [-> | ->]; cbn; lia.
  - intros lists k e Hcfg Hk Hne Hdb. apply truthy_true_iff in Hne.
    destruct (get_list_chats_matched lower repr list_name w lists k Hcfg Hk Hne)
      as [keywords [_ [_ Hrun]]].
    unfold reply, trace. rewrite Hrun, Hdb. repeat split; reflexivity.
Qed.

(** ** The configuration over the life of a process *)

Lemma set_config_same (w : World) : set_config (chat_lists_json w) w = w.
Proof. destruct w; reflexivity. Qed.

Lemma set_config_twice (f g : config_file) (w : World) :
  set_config g (set_config f w) = set_config g w.
Proof. reflexivity. Qed.

Lemma config_after_invoke (f : config_file) (steps : list step) (c : call) :
  config_after f (steps ++ [Invoke c]) = config_after f steps.
Proof.
  revert f. induction steps as [|[c'|g] steps IH]; intros f; simpl; auto.
Qed.

Lemma run_process_last (w : World) (steps : list step) (c : call) :
  run_process lower repr w (steps ++ [Invoke c])
  = run_process lower repr w steps
    ++ [reply (run_call lower repr c)
              (set_config (config_after (chat_lists_json w) steps) w)].
Proof.
  revert w. induction steps as [|[c'|f] steps IH]; intros w; simpl.
  - now rewrite set_config_same.
  - now rewrite IH.
  - rewrite IH. reflexivity.
Qed.

(** C7 (amended): every call loads the configuration itself, exactly
    once; the reply of a call is the reply in the world whose
    configuration file is the one left by the latest edit before the
    call, and the mapping the call loads is the one this file holds; so an
    edit between two calls is seen by the second call, and two calls with
    no edit in between use the same mapping. *)
Theorem C7_configuration_loaded_at_each_call
        (w : World) (steps : list step) (c : call) :
  let current := set_config (config_after (chat_lists_json w) steps) w in
  run_process lower repr w (steps ++ [Invoke c])
  = run_process lower repr w steps ++ [reply (run_call lower repr c) current]
  /\ count_events is_load (trace (run_call lower repr c) current) = 1%nat
  /\ (forall lists,
         config_after (chat_lists_json w) steps = Holds lists ->
         _load_chat_lists current = (Returns lists, [LoadChatLists]))
  /\ (forall c',
         run_process lower repr w (steps ++ [Invoke c; Invoke c'])
         = run_process lower repr w steps
           ++ [reply (run_call lower repr c) current;
               reply (run_call lower repr c') current]).
Proof.
  cbv zeta. split; [apply run_process_last |]. split; [| split].
  - destruct c as [list_name|]; cbn [run_call].
    + destruct (get_list_chats_trace list_name
                  (set_config (config_after (chat_lists_json w) steps) w))
        as [-> | ->]; reflexivity.
    + now rewrite show_all_lists_trace.
  - intros lists H. unfold _load_chat_lists. cbn [set_config chat_lists_json].
    now rewrite H.
  - intros c'.
    change (steps ++ [Invoke c; Invoke c']) with (steps ++ [Invoke c] ++ [Invoke c']).
    rewrite app_assoc, run_process_last, run_process_last, <- app_assoc.
    now rewrite config_after_invoke.
Qed.

End Classifier.

(** ** The transport tools *)

(** C9: with the empty recipient the transport is not called and the reply
    is the fixed failure; with any other recipient the transport is called
    once and its pair is the reply. *)
Theorem C9_send_message (message : string) (w : World) :
  (exists result,
      send_message "" message w = (Returns result, [])
      /\ result !! "success" = Some (PyBool false)
      /\ result !! "message" = Some (PyStr "Recipient must be provided")
      /\ dom result = {["success"; "message"]})
  /\ forall c rest,
      let recipient := String c rest in
      exists result,
        send_message recipient message w
        = (Returns result, [TransportSend recipient message])
        /\ result !! "success"
           = Some (PyBool (fst (whatsapp_send_message w recipient message)))
        /\ result !! "message"
           = Some (PyStr (snd (whatsapp_send_message w recipient message)))
        /\ dom result = {["success"; "message"]}.
Proof.
  split.
  - eexists. split; [reflexivity |].
    split; [now rewrite lookup_insert_eq |].
    split; [rewrite lookup_insert_ne by discriminate; now rewrite lookup_insert_eq |].
    rewrite !dom_insert_L, dom_empty_L. set_solver.
  - intros c rest recipient. subst recipient.
    unfold send_message, bind, call_send_message. cbn [PyStr.truthy negb].
    destruct (whatsapp_send_message w (String c rest) message) as [success status].
    eexists. split; [reflexivity |].
    split; [now rewrite lookup_insert_eq |].
    split; [rewrite lookup_insert_ne by discriminate; now rewrite lookup_insert_eq |].
    rewrite !dom_insert_L, dom_empty_L. set_solver.
Qed.

(** C10 (amended): [download_media] calls the download once; it replies
    success with the path under ["file_path"] exactly when the download
    yields a path that is neither null nor empty, and otherwise the failure
    without a ["file_path"] key. *)
Theorem C10_download_media (message_id chat_jid : string) (w : World) :
  exists result,
    download_media message_id chat_jid w
    = (Returns result, [TransportDownload message_id chat_jid])
    /\ ((exists path,
            whatsapp_download_media w message_id chat_jid = Some path
            /\ path <> ""
            /\ result !! "success" = Some (PyBool true)
            /\ result !! "message" = Some (PyStr "Media downloaded successfully")
            /\ result !! "file_path" = Some (PyStr path))
        \/ ((whatsapp_download_media w message_id chat_jid = None
             \/ whatsapp_download_media w message_id chat_jid = Some "")
            /\ result !! "success" = Some (PyBool false)
            /\ result !! "message" = Some (PyStr "Failed to download media")
            /\ result !! "file_path" = None)).
Proof.
  unfold download_media, bind, call_download_media.
  destruct (whatsapp_download_media w message_id chat_jid) as [[|c rest]|] eqn:E;
    cbn [PyStr.truthy]; eexists; (split; [reflexivity |]).
  - right. split; [now right |]. unfold download_failed.
    split; [now rewrite lookup_insert_eq |].
    split; [rewrite lookup_insert_ne by discriminate; now rewrite lookup_insert_eq |].
    rewrite !lookup_insert_ne by discriminate. apply lookup_empty.
  - left. exists (String c rest). split; [reflexivity |]. split; [discriminate |].
    split; [now rewrite lookup_insert_eq |].
    split; [rewrite lookup_insert_ne by discriminate; now rewrite lookup_insert_eq |].
    rewrite !lookup_insert_ne by discriminate. now rewrite lookup_insert_eq.
  - right. split; [now left |]. unfold download_failed.
    split; [now rewrite lookup_insert_eq |].
    split; [rewrite lookup_insert_ne by discriminate; now rewrite lookup_insert_eq |].
    rewrite !lookup_insert_ne by discriminate. apply lookup_empty.
Qed.

(** * The tools on the sample data *)

Example girls_trip_chat_in_trip_list :
  Sample.get "trip" Sample.w_trip
  = (Returns (listing "Trip"
                [Sample.vacation_row; Sample.girls_trip_row; Sample.dads_vacation_row]),
     [LoadChatLists; StoreRead]).
Proof. vm_compute. reflexivity. Qed.

(** A chat may be in no list, in one list or in several lists. *)
Example chats_in_zero_one_or_two_lists :
  let trip := select_matches PyStr.ascii_lower ["trip"; "vacation"]
                (Sqlite.named_chats Sample.db) in
  let family := select_matches PyStr.ascii_lower ["mom"; "dad"]
                  (Sqlite.named_chats Sample.db) in
  (~ In Sample.book_club_row trip /\ ~ In Sample.book_club_row family)
  /\ (In Sample.girls_trip_row trip /\ ~ In Sample.girls_trip_row family)
  /\ (In Sample.dads_vacation_row trip /\ In Sample.dads_vacation_row family).
Proof.
  vm_compute. repeat split; try tauto; intros H;
    repeat (destruct H as [H|H]; [discriminate H |]); exact H.
Qed.

Example preview_of_long_text :
  preview (Some Sample.long_text)
  = "Booked the flights for Friday morning, we leave at 6:40 from..."
  /\ PyStr.len Sample.long_text = 81%nat.
Proof. split; reflexivity. Qed.

(** * The claims on the sample data *)

(** C1 at the request ["trip"]: the chat "Girls Trip 2024" is among the
    matches exactly when a keyword of the list "Trip" occurs in its
    lowercased name. *)
Lemma C1_witness :
  chat_lists_json Sample.w_trip = Holds Sample.trip_lists
  /\ next_matching_key PyStr.ascii_lower Sample.trip_lists "trip" = Some "Trip"
  /\ PyStr.truthy "Trip" = true
  /\ messages_db Sample.w_trip = inr Sample.db
  /\ (In Sample.girls_trip_row
         (select_matches PyStr.ascii_lower ["trip"; "vacation"]
            (Sqlite.named_chats Sample.db))
      <-> exists kw, In kw ["trip"; "vacation"]
            /\ PyStr.occurs_in (PyStr.ascii_lower kw)
                 (PyStr.ascii_lower "Girls Trip 2024")).
Proof.
  do 4 (split; [reflexivity |]).
  destruct (C1_membership_by_keyword_substring
              PyStr.ascii_lower PyStr.plain_repr "trip" Sample.w_trip
              Sample.trip_lists "Trip" Sample.db eq_refl eq_refl eq_refl eq_refl)
    as [keywords [Hget [_ [_ [H _]]]]].
  cbn in Hget. injection Hget as <-.
  apply H. vm_compute. tauto.
Defined.

(** C3 at the request ["all"], whose only keyword is the empty string: the
    chat with the empty name is not among the matches. *)
Lemma C3_witness :
  chat_lists_json Sample.w_everything = Holds Sample.everything_lists
  /\ next_matching_key PyStr.ascii_lower Sample.everything_lists "all" = Some "All"
  /\ PyStr.truthy "All" = true
  /\ messages_db Sample.w_everything = inr Sample.db
  /\ In Sample.unnamed (Sqlite.chats Sample.db)
  /\ ~ In ("4915100000002@s.whatsapp.net", Some "",
           Sqlite.Text "2024-05-05 12:00:00+00:00", Some "trip?")
          (select_matches PyStr.ascii_lower [""] (Sqlite.named_chats Sample.db)).
Proof.
  do 4 (split; [reflexivity |]).
  split; [vm_compute; tauto |].
  destruct (C3_unnamed_chats_excluded
              PyStr.ascii_lower PyStr.plain_repr "all" Sample.w_everything
              Sample.everything_lists "All" Sample.db eq_refl eq_refl eq_refl eq_refl)
    as [keywords [Hget [_ [_ H]]]].
  cbn in Hget. injection Hget as <-.
  apply H.
Defined.

(** C5 (amended) at the request ["trip"] over a store whose times are
    integers: the three matches are listed most recent first. *)
Lemma C5_witness :
  chat_lists_json RecencySample.w_epoch = Holds Sample.trip_lists
  /\ next_matching_key PyStr.ascii_lower Sample.trip_lists "trip" = Some "Trip"
  /\ PyStr.truthy "Trip" = true
  /\ messages_db RecencySample.w_epoch = inr RecencySample.db_epoch
  /\ List.map Sqlite.row_time
       (select_matches PyStr.ascii_lower ["trip"; "vacation"]
          (Sqlite.named_chats RecencySample.db_epoch))
     = [Sqlite.Integer 1714953600; Sqlite.Integer 1714777200;
        Sqlite.Integer 1714746600]
  /\ Chronology.most_recent_first
       (select_matches PyStr.ascii_lower ["trip"; "vacation"]
          (Sqlite.named_chats RecencySample.db_epoch)).
Proof.
  do 4 (split; [reflexivity |]). split; [reflexivity |].
  destruct (C5_listed_by_stored_time_descending
              PyStr.ascii_lower PyStr.plain_repr "trip" RecencySample.w_epoch
              Sample.trip_lists "Trip" RecencySample.db_epoch
              eq_refl eq_refl eq_refl eq_refl)
    as [keywords [Hget H]].
  cbn in Hget. injection Hget as <-.
  destruct H as [_ [_ H]].
  - vm_compute. discriminate.
  - apply H. left. vm_compute.
    intros r s [<- | [<- | [<- | []]]]; discriminate.
Defined.

(** C5 as stated fails over a store whose times are texts with different
    UTC offsets and an integer: the listing is "Lisbon trip", "Trip
    budget", "Trip photos", "Road trip", while "Road trip" was active
    last and "Trip budget" after "Lisbon trip". *)
Lemma C5_counterexample :
  let listed :=
    [RecencySample.lisbon_row; RecencySample.budget_row;
     RecencySample.photos_row; RecencySample.road_row] in
  reply (Sample.get "trip") RecencySample.w = Returns (listing "Trip" listed)
  /\ List.map (fun r => Chronology.instant (Sqlite.row_time r)) listed
     = [Some 1714746600%Z; Some 1714777200%Z; Some 1714550400%Z; Some 1714953600%Z]
  /\ ~ Chronology.most_recent_first listed.
Proof.
  cbv zeta. split; [vm_compute; reflexivity |]. split; [vm_compute; reflexivity |].
  intros H.
  specialize (H RecencySample.lisbon_row RecencySample.budget_row
                1714746600%Z 1714777200%Z).
  assert (1714777200 <= 1714746600)%Z as Hle.
  { apply H; [| vm_compute; reflexivity | vm_compute; reflexivity].
    exists [], [], [RecencySample.photos_row; RecencySample.road_row]. reflexivity. }
  lia.
Qed.

(** C8 with a store that cannot be opened. *)
Lemma C8_witness :
  chat_lists_json Sample.w_store_down = Holds Sample.trip_lists
  /\ next_matching_key PyStr.ascii_lower Sample.trip_lists "TRIP" = Some "Trip"
  /\ PyStr.truthy "Trip" = true
  /\ messages_db Sample.w_store_down = inl "unable to open database file"
  /\ reply (Sample.get "TRIP") Sample.w_store_down
     = Returns "Database error: unable to open database file"
  /\ count_events is_store_read (trace (Sample.get "TRIP") Sample.w_store_down) = 1%nat.
Proof.
  do 4 (split; [reflexivity |]).
  destruct (proj2 (C8_store_failure_returned
                     PyStr.ascii_lower PyStr.plain_repr "TRIP" Sample.w_store_down)
                  Sample.trip_lists "Trip" "unable to open database file"
                  eq_refl eq_refl eq_refl eq_refl)
    as [H1 [_ H2]].
  split; [exact H1 | exact H2].
Defined.

(** C2 (amended) at the request ["work"], which no label of the sample
    configuration equals up to case. *)
Lemma C2_witness :
  chat_lists_json Sample.w_trip = Holds Sample.trip_lists
  /\ Sample.trip_lists <> []
  /\ (forall label, In label (dict_keys Sample.trip_lists) ->
                    PyStr.ascii_lower label <> PyStr.ascii_lower "work")
  /\ reply (Sample.get "work") Sample.w_trip
     = Returns "List 'work' not found. Available lists: Trip, Family"
  /\ count_events is_store_read (trace (Sample.get "work") Sample.w_trip) = 0%nat.
Proof.
  assert (Sample.trip_lists <> []) as Hne by discriminate.
  assert (forall label, In label (dict_keys Sample.trip_lists) ->
                        PyStr.ascii_lower label <> PyStr.ascii_lower "work") as Hnone.
  { intros label [<- | [<- | []]]; vm_compute; discriminate. }
  split; [reflexivity |]. split; [exact Hne |]. split; [exact Hnone |].
  destruct (proj1 (C2_unknown_list_not_found
                     PyStr.ascii_lower PyStr.plain_repr "work" Sample.w_trip)
                  Sample.trip_lists eq_refl Hne Hnone)
    as [H1 [_ H2]].
  split; [exact H1 | exact H2].
Defined.

(** C2 as stated fails without a configuration: no label matches
    ["Dance"], and the reply is the no-lists message, not the not-found
    message with the valid names. *)
Lemma C2_counterexample :
  chat_lists_json Sample.w_no_config = Absent
  /\ (forall label, In label (dict_keys []) ->
                    PyStr.ascii_lower label <> PyStr.ascii_lower "Dance")
  /\ reply (Sample.get "Dance") Sample.w_no_config = Returns no_lists_defined
  /\ reply (Sample.get "Dance") Sample.w_no_config
     <> Returns (not_found "Dance" []).
Proof.
  split; [reflexivity |]. split; [intros label [] |]. split; [reflexivity |].
  vm_compute. discriminate.
Qed.

(** C4 fails for an empty label: the label [""] equals the request [""],
    the lookup finds it, and the reply is the not-found message. *)
Lemma C4_empty_label_not_resolved :
  chat_lists_json Sample.w_empty_label = Holds Sample.empty_label_lists
  /\ In "" (dict_keys Sample.empty_label_lists)
  /\ PyStr.ascii_lower "" = PyStr.ascii_lower ""
  /\ next_matching_key PyStr.ascii_lower Sample.empty_label_lists "" = Some ""
  /\ Sample.get "" Sample.w_empty_label
     = (Returns "List '' not found. Available lists: , Family", [LoadChatLists]).
Proof.
  split; [reflexivity |]. split; [now left |]. repeat split.
Qed.

(** C6 as stated fails at the request ["family"]: the entry of the chat
    "Mom" has two lines, and the identifier of the chat occurs nowhere in
    the reply. *)
Lemma C6_counterexample :
  reply (Sample.get "family") Sample.w_trip
  = Returns (listing "Family" [Sample.mom_row; Sample.dads_vacation_row])
  /\ entry Sample.mom_row
     = bullet_mark +:+ " Mom  [2024-05-03 18:00:00+00:00]" +:+ PyStr.nl +:+ "  Call me"
  /\ PyStr.str_in PyStr.nl (entry Sample.mom_row) = true
  /\ PyStr.str_in "4915100000001@s.whatsapp.net" (entry Sample.mom_row) = false
  /\ PyStr.str_in "4915100000001@s.whatsapp.net"
       (listing "Family" [Sample.mom_row; Sample.dads_vacation_row]) = false.
Proof. repeat split; vm_compute; reflexivity. Qed.

(** C6 (amended) at the request ["trip"]. *)
Lemma C6_witness :
  chat_lists_json Sample.w_trip = Holds Sample.trip_lists
  /\ next_matching_key PyStr.ascii_lower Sample.trip_lists "trip" = Some "Trip"
  /\ PyStr.truthy "Trip" = true
  /\ messages_db Sample.w_trip = inr Sample.db
  /\ preview (Some Sample.long_text) = PyStr.slice_to 60 Sample.long_text +:+ "..."
  /\ preview (Some "See you") = "See you".
Proof.
  do 4 (split; [reflexivity |]).
  destruct (C6_entry_and_preview
              PyStr.ascii_lower PyStr.plain_repr "trip" Sample.w_trip
              Sample.trip_lists "Trip" Sample.db eq_refl eq_refl eq_refl eq_refl)
    as [keywords [_ [_ [_ [_ [Hshort Hlong]]]]]].
  split.
  - apply Hlong. vm_compute. lia.
  - apply Hshort. vm_compute. lia.
Defined.

(** C7 as stated fails: the file is rewritten between two calls of
    [get_list_chats("trip")] (and of [show_all_lists]), and the second call
    answers from the new content, not as in the process without the
    edit. *)
Lemma C7_counterexample :
  let run := run_process PyStr.ascii_lower PyStr.plain_repr Sample.w_trip in
  let steps :=
    [Invoke (GetListChats "trip"); EditConfig (Holds Sample.edited_lists);
     Invoke (GetListChats "trip")] in
  let steps' :=
    [Invoke ShowAllLists; EditConfig (Holds Sample.edited_lists);
     Invoke ShowAllLists] in
  let before :=
    listing "Trip"
      [Sample.vacation_row; Sample.girls_trip_row; Sample.dads_vacation_row] in
  let after := listing "Trip" [Sample.mom_row] in
  run steps = [Returns before; Returns after]
  /\ run (List.filter is_invoke steps) = [Returns before; Returns before]
  /\ before <> after
  /\ run steps' <> run (List.filter is_invoke steps')
  /\ ~ (forall w l,
          run_process PyStr.ascii_lower PyStr.plain_repr w l
          = run_process PyStr.ascii_lower PyStr.plain_repr w (List.filter is_invoke l)).
Proof.
  cbv zeta. split; [vm_compute; reflexivity |]. split; [vm_compute; reflexivity |].
  split; [vm_compute; discriminate |]. split; [vm_compute; discriminate |].
  intros H.
  specialize (H Sample.w_trip
                [Invoke ShowAllLists; EditConfig (Holds Sample.edited_lists);
                 Invoke ShowAllLists]).
  vm_compute in H. discriminate H.
Qed.

(** C7 (amended) on the sample process: after the edit, the call loads
    the edited mapping. *)
Lemma C7_witness :
  config_after (chat_lists_json Sample.w_trip)
    [Invoke (GetListChats "trip"); EditConfig (Holds Sample.edited_lists)]
  = Holds Sample.edited_lists
  /\ _load_chat_lists
       (set_config (Holds Sample.edited_lists) Sample.w_trip)
     = (Returns Sample.edited_lists, [LoadChatLists]).
Proof.
  split; [reflexivity |].
  destruct (C7_configuration_loaded_at_each_call
              PyStr.ascii_lower PyStr.plain_repr Sample.w_trip
              [Invoke (GetListChats "trip"); EditConfig (Holds Sample.edited_lists)]
              (GetListChats "trip"))
    as [_ [_ [H _]]].
  exact (H Sample.edited_lists eq_refl).
Defined.

(** C10 as stated fails when the download yields the empty path: the path
    is not null, and the reply is the failure. *)
Lemma C10_counterexample :
  whatsapp_download_media Sample.w_empty_path "3EB0A1" "120363000000000001@g.us"
  = Some ""
  /\ Some "" <> (None : option string)
  /\ exists result,
      reply (download_media "3EB0A1" "120363000000000001@g.us") Sample.w_empty_path
      = Returns result
      /\ result !! "success" = Some (PyBool false)
      /\ result !! "file_path" = None.
Proof.
  split; [reflexivity |]. split; [discriminate |].
  exists download_failed. split; [reflexivity |]. split; reflexivity.
Qed.

Example download_media_success :
  exists result,
    reply (download_media "3EB0A1" "120363000000000001@g.us") Sample.w_media
    = Returns result
    /\ result !! "success" = Some (PyBool true)
    /\ result !! "file_path" = Some (PyStr "/srv/store/media/IMG-0001.jpg").
Proof. eexists. split; [reflexivity |]. split; reflexivity. Qed.

(** * Further properties of the code *)

(** ** The tools over the bridge client *)

Lemma append_inj_r (a b c : string) : a +:+ c = b +:+ c -> a = b.
Proof.
  revert b. induction a as [|x a IH]; intros b H.
  - destruct b as [|y b]; [reflexivity |].
    apply (f_equal String.length) in H. rewrite !length_append in H.
    simpl in H. lia.
  - destruct b as [|y b].
    + apply (f_equal String.length) in H. rewrite !length_append in H.
      simpl in H. lia.
    + rewrite !append_cons in H. injection H as -> H. f_equal. now apply IH.
Qed.

Lemma append_inj_l (a b c : string) : a +:+ b = a +:+ c -> b = c.
Proof.
  induction a as [|x a IH]; [trivial |].
  rewrite !append_cons. intros H. injection H as H. now apply IH.
Qed.

Lemma occurs_in_refl (x : string) : PyStr.occurs_in x x.
Proof. exists "", "". now rewrite append_nil_l, append_empty_r. Qed.

Lemma occurs_in_middle (pre x post : string) :
  PyStr.occurs_in x (pre +:+ x +:+ post).
Proof. exists pre, post. reflexivity. Qed.

Lemma extract_with_unresolved (prompt : string -> string) (g : string) (d : Z)
      (e : Bridge.env) :
  Bridge.whatsapp_list_chats e g 5 true = []
  \/ (exists c rest,
         Bridge.whatsapp_list_chats e g 5 true = c :: rest
         /\ (Bridge.item_jid c = None \/ Bridge.item_jid c = Some "")) ->
  Bridge.extract_with prompt g d e
  = (Bridge.Returned (Bridge.could_not_find g), [Bridge.ListChats g 5 true]).
Proof.
  cbv [Bridge.extract_with Bridge.bind Bridge._resolve_chat_jid
         Bridge.call_list_chats Bridge.ret].
  intros [H | [c [rest [H [Hj | Hj]]]]]; rewrite H; cbn; try rewrite Hj; reflexivity.
Qed.

Lemma extract_with_resolved (prompt : string -> string) (g : string) (d : Z)
      (e : Bridge.env) (c : Bridge.chat_item) (rest : list Bridge.chat_item)
      (jid after : string) :
  Bridge.whatsapp_list_chats e g 5 true = c :: rest ->
  Bridge.item_jid c = Some jid -> PyStr.truthy jid = true ->
  Bridge.isoformat_days_ago e d = Some after ->
  Bridge.extract_with prompt g d e
  = (let messages := Bridge.whatsapp_list_messages e jid after 500 false in
     Bridge.Returned
       (if Bridge.no_messages messages then Bridge.no_messages_found
        else prompt messages),
     [Bridge.ListChats g 5 true; Bridge.ListMessages jid after 500 false]).
Proof.
  intros H Hj Ht Ha.
  cbv [Bridge.extract_with Bridge.bind Bridge._resolve_chat_jid
         Bridge.call_list_chats Bridge.call_list_messages Bridge.clock Bridge.ret].
  rewrite H. cbn. rewrite Hj, Ht. cbn. rewrite Ha.
  destruct (Bridge.no_messages _); reflexivity.
Qed.

Lemma extract_with_overflow (prompt : string -> string) (g : string) (d : Z)
      (e : Bridge.env) (c : Bridge.chat_item) (rest : list Bridge.chat_item)
      (jid : string) :
  Bridge.whatsapp_list_chats e g 5 true = c :: rest ->
  Bridge.item_jid c = Some jid -> PyStr.truthy jid = true ->
  Bridge.isoformat_days_ago e d = None ->
  Bridge.extract_with prompt g d e
  = (Bridge.RaisedOverflowError, [Bridge.ListChats g 5 true]).
Proof.
  intros H Hj Ht Ha.
  cbv [Bridge.extract_with Bridge.bind Bridge._resolve_chat_jid
         Bridge.call_list_chats Bridge.call_list_messages Bridge.clock Bridge.ret].
  rewrite H. cbn. rewrite Hj, Ht. cbn. rewrite Ha. reflexivity.
Qed.

(** [send_file] and [send_audio_message] do not check the recipient: each
    calls its transport function once for every recipient, the empty one
    included, and replies with the pair it got; [send_message] alone stops
    at the empty recipient. *)
Theorem send_file_and_audio_always_call_the_transport
        (recipient media_path message : string) (e : Bridge.env) (w : World) :
  (exists result,
      Bridge.send_file recipient media_path e
      = (result, [Bridge.SendFile recipient media_path])
      /\ result !! "success"
         = Some (PyBool (fst (Bridge.whatsapp_send_file e recipient media_path)))
      /\ result !! "message"
         = Some (PyStr (snd (Bridge.whatsapp_send_file e recipient media_path)))
      /\ dom result = {["success"; "message"]})
  /\ (exists result,
         Bridge.send_audio_message recipient media_path e
         = (result, [Bridge.SendAudio recipient media_path])
         /\ result !! "success"
            = Some (PyBool (fst (Bridge.whatsapp_audio_voice_message e recipient media_path)))
         /\ result !! "message"
            = Some (PyStr (snd (Bridge.whatsapp_audio_voice_message e recipient media_path)))
         /\ dom result = {["success"; "message"]})
  /\ snd (Bridge.send_file "" media_path e) = [Bridge.SendFile "" media_path]
  /\ snd (Bridge.send_audio_message "" media_path e) = [Bridge.SendAudio "" media_path]
  /\ trace (send_message "" message) w = [].
Proof.
  split; [| split; [| split; [| split]]].
  - unfold Bridge.send_file, Bridge.bind, Bridge.call_send_file.
    destruct (Bridge.whatsapp_send_file e recipient media_path) as [success status].
    eexists. split; [reflexivity |].
    split; [now rewrite lookup_insert_eq |].
    split; [rewrite lookup_insert_ne by discriminate; now rewrite lookup_insert_eq |].
    rewrite !dom_insert_L, dom_empty_L. set_solver.
  - unfold Bridge.send_audio_message, Bridge.bind, Bridge.call_send_audio.
    destruct (Bridge.whatsapp_audio_voice_message e recipient media_path)
      as [success status].
    eexists. split; [reflexivity |].
    split; [now rewrite lookup_insert_eq |].
    split; [rewrite lookup_insert_ne by discriminate; now rewrite lookup_insert_eq |].
    rewrite !dom_insert_L, dom_empty_L. set_solver.
  - unfold Bridge.send_file, Bridge.bind, Bridge.call_send_file.
    destruct (Bridge.whatsapp_send_file e "" media_path). reflexivity.
  - unfold Bridge.send_audio_message, Bridge.bind, Bridge.call_send_audio.
    destruct (Bridge.whatsapp_audio_voice_message e "" media_path). reflexivity.
  - reflexivity.
Qed.

(** When the lookup returns no chat, or a first chat without a jid or with
    the empty jid, both prompt builders reply that the group could not be
    found, naming the request, and do not query any messages. *)
Theorem extract_unresolved_group (g : string) (d : Z) (e : Bridge.env) :
  Bridge.whatsapp_list_chats e g 5 true = []
  \/ (exists c rest,
         Bridge.whatsapp_list_chats e g 5 true = c :: rest
         /\ (Bridge.item_jid c = None \/ Bridge.item_jid c = Some "")) ->
  Bridge.extract_trip_itinerary g d e
  = (Bridge.Returned
       ("Could not find a group matching '" +:+ g
          +:+ "'. Try list_chats to see available groups."),
     [Bridge.ListChats g 5 true])
  /\ Bridge.extract_packing_list g d e = Bridge.extract_trip_itinerary g d e.
Proof.
  intros H. unfold Bridge.extract_trip_itinerary, Bridge.extract_packing_list.
  rewrite !(extract_with_unresolved _ g d e H). split; reflexivity.
Qed.

(** When the first chat of the lookup has a jid, the date arithmetic
    succeeds and the messages come back empty or as a text starting with
    ["No messages"], both prompt builders reply that no messages were
    found; the messages asked for are those of that first chat after the
    computed date, with limit 500 and without context. *)
Theorem extract_no_messages (g : string) (d : Z) (e : Bridge.env)
        (c : Bridge.chat_item) (rest : list Bridge.chat_item) (jid after : string) :
  Bridge.whatsapp_list_chats e g 5 true = c :: rest ->
  Bridge.item_jid c = Some jid -> PyStr.truthy jid = true ->
  Bridge.isoformat_days_ago e d = Some after ->
  (Bridge.whatsapp_list_messages e jid after 500 false = ""
   \/ String.prefix "No messages" (Bridge.whatsapp_list_messages e jid after 500 false)
      = true) ->
  Bridge.extract_trip_itinerary g d e
  = (Bridge.Returned "No messages found in this chat for the given time period.",
     [Bridge.ListChats g 5 true; Bridge.ListMessages jid after 500 false])
  /\ Bridge.extract_packing_list g d e = Bridge.extract_trip_itinerary g d e.
Proof.
  intros H Hj Ht Ha Hm. unfold Bridge.extract_trip_itinerary, Bridge.extract_packing_list.
  rewrite !(extract_with_resolved _ g d e c rest jid after H Hj Ht Ha). cbv zeta.
  assert (Bridge.no_messages (Bridge.whatsapp_list_messages e jid after 500 false)
          = true) as ->.
  { unfold Bridge.no_messages. destruct Hm as [-> | ->]; [reflexivity |].
    apply orb_true_r. }
  split; reflexivity.
Qed.

(** When the first chat of the lookup has a jid, the date arithmetic
    succeeds and the messages are a non-empty text that does not start
    with ["No messages"], each prompt builder replies with its prompt
    around that text, which occurs in the reply unchanged. *)
Theorem extract_prompt_carries_messages (g : string) (d : Z) (e : Bridge.env)
        (c : Bridge.chat_item) (rest : list Bridge.chat_item) (jid after : string) :
  Bridge.whatsapp_list_chats e g 5 true = c :: rest ->
  Bridge.item_jid c = Some jid -> PyStr.truthy jid = true ->
  Bridge.isoformat_days_ago e d = Some after ->
  let messages := Bridge.whatsapp_list_messages e jid after 500 false in
  PyStr.truthy messages = true ->
  String.prefix "No messages" messages = false ->
  Bridge.extract_trip_itinerary g d e
  = (Bridge.Returned (Bridge.itinerary_prompt messages),
     [Bridge.ListChats g 5 true; Bridge.ListMessages jid after 500 false])
  /\ Bridge.extract_packing_list g d e
     = (Bridge.Returned (Bridge.packing_prompt messages),
        [Bridge.ListChats g 5 true; Bridge.ListMessages jid after 500 false])
  /\ PyStr.occurs_in
       ("MESSAGES:" +:+ PyStr.nl +:+ messages +:+ PyStr.nl +:+ PyStr.nl +:+ "ITINERARY:")
       (Bridge.itinerary_prompt messages)
  /\ PyStr.occurs_in
       ("MESSAGES:" +:+ PyStr.nl +:+ messages +:+ PyStr.nl +:+ PyStr.nl +:+ "PACKING LIST:")
       (Bridge.packing_prompt messages).
Proof.
  intros H Hj Ht Ha messages Hm Hp.
  unfold Bridge.extract_trip_itinerary, Bridge.extract_packing_list.
  rewrite !(extract_with_resolved _ g d e c rest jid after H Hj Ht Ha). cbv zeta.
  fold messages.
  assert (Bridge.no_messages messages = false) as ->.
  { unfold Bridge.no_messages. now rewrite Hm, Hp. }
  split; [reflexivity |]. split; [reflexivity |]. split.
  - unfold Bridge.itinerary_prompt.
    do 10 apply occurs_in_append_r. apply occurs_in_refl.
  - unfold Bridge.packing_prompt.
    do 14 apply occurs_in_append_r. apply occurs_in_refl.
Qed.

(** When the first chat of the lookup has a jid and the date arithmetic
    raises [OverflowError], as it does for a [days_back] out of range,
    both prompt builders raise it after the chat lookup and query no
    messages. *)
Theorem extract_overflow_after_the_lookup (g : string) (d : Z) (e : Bridge.env)
        (c : Bridge.chat_item) (rest : list Bridge.chat_item) (jid : string) :
  Bridge.whatsapp_list_chats e g 5 true = c :: rest ->
  Bridge.item_jid c = Some jid -> PyStr.truthy jid = true ->
  Bridge.isoformat_days_ago e d = None ->
  Bridge.extract_trip_itinerary g d e
  = (Bridge.RaisedOverflowError, [Bridge.ListChats g 5 true])
  /\ Bridge.extract_packing_list g d e
     = (Bridge.RaisedOverflowError, [Bridge.ListChats g 5 true]).
Proof.
  intros H Hj Ht Ha. unfold Bridge.extract_trip_itinerary, Bridge.extract_packing_list.
  rewrite !(extract_with_overflow _ g d e c rest jid H Hj Ht Ha). split; reflexivity.
Qed.

Lemma extract_with_cases (p1 p2 : string -> string) (g : string) (d : Z)
      (e : Bridge.env) :
  (exists r,
      (r = Bridge.Returned (Bridge.could_not_find g) \/ r = Bridge.RaisedOverflowError)
      /\ Bridge.extract_with p1 g d e = (r, [Bridge.ListChats g 5 true])
      /\ Bridge.extract_with p2 g d e = (r, [Bridge.ListChats g 5 true]))
  \/ exists jid after,
      Bridge.isoformat_days_ago e d = Some after /\
      let messages := Bridge.whatsapp_list_messages e jid after 500 false in
      let calls :=
        [Bridge.ListChats g 5 true; Bridge.ListMessages jid after 500 false] in
      (Bridge.no_messages messages = true
       /\ Bridge.extract_with p1 g d e = (Bridge.Returned Bridge.no_messages_found, calls)
       /\ Bridge.extract_with p2 g d e = (Bridge.Returned Bridge.no_messages_found, calls))
      \/ (Bridge.no_messages messages = false
          /\ Bridge.extract_with p1 g d e = (Bridge.Returned (p1 messages), calls)
          /\ Bridge.extract_with p2 g d e = (Bridge.Returned (p2 messages), calls)).
Proof.
  assert (Bridge.whatsapp_list_chats e g 5 true = []
          \/ (exists c rest,
                 Bridge.whatsapp_list_chats e g 5 true = c :: rest
                 /\ (Bridge.item_jid c = None \/ Bridge.item_jid c = Some "")) ->
          exists r,
            (r = Bridge.Returned (Bridge.could_not_find g)
             \/ r = Bridge.RaisedOverflowError)
            /\ Bridge.extract_with p1 g d e = (r, [Bridge.ListChats g 5 true])
            /\ Bridge.extract_with p2 g d e = (r, [Bridge.ListChats g 5 true]))
    as Hun.
  { intros H. exists (Bridge.Returned (Bridge.could_not_find g)).
    split; [now left |]. split; now apply extract_with_unresolved. }
  destruct (Bridge.whatsapp_list_chats e g 5 true) as [|c rest] eqn:H.
  - left. apply Hun. now left.
  - destruct (Bridge.item_jid c) as [jid|] eqn:Hj.
    + destruct (PyStr.truthy jid) eqn:Ht.
      * destruct (Bridge.isoformat_days_ago e d) as [after|] eqn:Ha.
        { right. exists jid, after. split; [reflexivity |]. cbv zeta.
          rewrite !(extract_with_resolved _ g d e c rest jid after H Hj Ht Ha).
          cbv zeta. destruct (Bridge.no_messages _); [left | right]; auto. }
        left. exists Bridge.RaisedOverflowError. split; [now right |].
        split; now apply (extract_with_overflow _ g d e c rest jid).
      * left. destruct jid; [| discriminate].
        apply Hun. right. exists c, rest. auto.
    + left. apply Hun. right. exists c, rest. auto.
Qed.

(** The two prompt builders make the same calls for the same request: one
    chat lookup with limit 5, then, if the date arithmetic succeeds, at
    most one message query with limit 500 and without context, and
    nothing else; they end alike when they fail, also by raising
    [OverflowError], and differ in the prompt alone when they succeed. *)
Theorem prompt_builders_make_the_same_calls (g : string) (d : Z) (e : Bridge.env) :
  snd (Bridge.extract_trip_itinerary g d e) = snd (Bridge.extract_packing_list g d e)
  /\ (snd (Bridge.extract_trip_itinerary g d e) = [Bridge.ListChats g 5 true]
      \/ exists jid after,
          Bridge.isoformat_days_ago e d = Some after
          /\ snd (Bridge.extract_trip_itinerary g d e)
             = [Bridge.ListChats g 5 true; Bridge.ListMessages jid after 500 false])
  /\ (fst (Bridge.extract_trip_itinerary g d e) = fst (Bridge.extract_packing_list g d e)
      \/ exists messages,
          fst (Bridge.extract_trip_itinerary g d e)
          = Bridge.Returned (Bridge.itinerary_prompt messages)
          /\ fst (Bridge.extract_packing_list g d e)
             = Bridge.Returned (Bridge.packing_prompt messages))
  /\ (Bridge.isoformat_days_ago e d = None ->
      snd (Bridge.extract_trip_itinerary g d e) = [Bridge.ListChats g 5 true]).
Proof.
  unfold Bridge.extract_trip_itinerary, Bridge.extract_packing_list.
  destruct (extract_with_cases Bridge.itinerary_prompt Bridge.packing_prompt g d e)
    as [[r [_ [-> ->]]] | [jid [after [Ha [[_ [-> ->]] | [_ [-> ->]]]]]]];
    cbn [fst snd].
  - split; [reflexivity |]. split; [now left |]. split; [now left | reflexivity].
  - split; [reflexivity |]. split; [right; now exists jid, after |].
    split; [now left | intros Hn; congruence].
  - split; [reflexivity |]. split; [right; now exists jid, after |].
    split; [right; eauto | intros Hn; congruence].
Qed.

(** The message text can be read back from a prompt: two message texts
    with the same itinerary prompt, or the same packing prompt, are
    equal. *)
Theorem prompts_determine_the_messages (m1 m2 : string) :
  (Bridge.itinerary_prompt m1 = Bridge.itinerary_prompt m2 -> m1 = m2)
  /\ (Bridge.packing_prompt m1 = Bridge.packing_prompt m2 -> m1 = m2).
Proof.
  split; intros H.
  - unfold Bridge.itinerary_prompt in H.
    do 12 apply append_inj_l in H. now apply append_inj_r in H.
  - unfold Bridge.packing_prompt in H.
    do 16 apply append_inj_l in H. now apply append_inj_r in H.
Qed.

(** ** The bridge tools on the sample bridge *)

Lemma extract_unresolved_group_witness :
  Bridge.extract_packing_list "broken" 30 BridgeSample.bridge
  = (Bridge.Returned
       "Could not find a group matching 'broken'. Try list_chats to see available groups.",
     [Bridge.ListChats "broken" 5 true]).
Proof.
  destruct (extract_unresolved_group "broken" 30 BridgeSample.bridge) as [H1 H2].
  - right. exists (Bridge.ChatDict ∅), [BridgeSample.girls_trip_chat].
    split; [reflexivity | left; reflexivity].
  - rewrite H2. exact H1.
Defined.

Lemma extract_no_messages_witness :
  Bridge.isoformat_days_ago BridgeSample.bridge 7 = Some "2024-04-03T10:00:00.000000"
  /\ Bridge.extract_trip_itinerary "silent" 7 BridgeSample.bridge
     = (Bridge.Returned "No messages found in this chat for the given time period.",
        [Bridge.ListChats "silent" 5 true;
         Bridge.ListMessages "120363000000000005@g.us" "2024-04-03T10:00:00.000000"
           500 false]).
Proof.
  split; [reflexivity |].
  refine (proj1 (extract_no_messages "silent" 7 BridgeSample.bridge
                   (Bridge.ChatObject (Some "120363000000000005@g.us")) []
                   "120363000000000005@g.us" "2024-04-03T10:00:00.000000"
                   eq_refl eq_refl eq_refl eq_refl _)).
  right. reflexivity.
Defined.

Lemma extract_prompt_carries_messages_witness :
  PyStr.truthy BridgeSample.transcript = true
  /\ String.prefix "No messages" BridgeSample.transcript = false
  /\ Bridge.extract_trip_itinerary "trip" 30 BridgeSample.bridge
     = (Bridge.Returned (Bridge.itinerary_prompt BridgeSample.transcript),
        [Bridge.ListChats "trip" 5 true;
         Bridge.ListMessages "120363000000000001@g.us" "2024-04-03T10:00:00.000000"
           500 false]).
Proof.
  split; [reflexivity |]. split; [reflexivity |].
  exact (proj1 (extract_prompt_carries_messages
                  "trip" 30 BridgeSample.bridge BridgeSample.girls_trip_chat
                  [BridgeSample.lisbon_trip_chat] "120363000000000001@g.us"
                  "2024-04-03T10:00:00.000000"
                  eq_refl eq_refl eq_refl eq_refl eq_refl eq_refl)).
Defined.

Lemma extract_overflow_after_the_lookup_witness :
  Bridge.isoformat_days_ago BridgeSample.bridge 1000000 = None
  /\ Bridge.extract_trip_itinerary "trip" 1000000 BridgeSample.bridge
     = (Bridge.RaisedOverflowError, [Bridge.ListChats "trip" 5 true]).
Proof.
  split; [reflexivity |].
  exact (proj1 (extract_overflow_after_the_lookup
                  "trip" 1000000 BridgeSample.bridge BridgeSample.girls_trip_chat
                  [BridgeSample.lisbon_trip_chat] "120363000000000001@g.us"
                  eq_refl eq_refl eq_refl eq_refl)).
Defined.

Lemma prompts_determine_the_messages_witness :
  Bridge.itinerary_prompt BridgeSample.transcript
  = Bridge.itinerary_prompt BridgeSample.transcript
  /\ BridgeSample.transcript = BridgeSample.transcript.
Proof.
  split; [reflexivity |].
  exact (proj1 (prompts_determine_the_messages BridgeSample.transcript
                  BridgeSample.transcript) eq_refl).
Defined.

(** ** More on the keyword list classifier *)

Lemma existsb_map_lower (lower : string -> string) (g : string -> bool)
      (kws : list string) :
  List.existsb (fun kw => g (lower kw)) kws = List.existsb g (List.map lower kws).
Proof. induction kws as [|kw kws IH]; simpl; [reflexivity | now rewrite IH]. Qed.

Lemma filter_all (A : Type) (f : A -> bool) (l : list A) :
  (forall x, In x l -> f x = true) -> List.filter f l = l.
Proof.
  induction l as [|x l IH]; simpl; [reflexivity |]. intros H.
  rewrite (H x (or_introl eq_refl)). f_equal. apply IH. auto.
Qed.

Lemma find_app_split (A : Type) (p : A -> bool) (l1 l2 : list A) :
  List.find p (l1 ++ l2)
  = match List.find p l1 with
    | Some x => Some x
    | None => List.find p l2
    end.
Proof.
  induction l1 as [|x l1 IH]; simpl; [reflexivity |]. now destruct (p x).
Qed.

Lemma sorted_after (R : Sqlite.row -> Sqlite.row -> Prop) (l1 l2 : list Sqlite.row)
      (a : Sqlite.row) :
  StronglySorted R (l1 ++ a :: l2) -> List.Forall (R a) l2.
Proof.
  induction l1 as [|x l1 IH]; simpl; intros H.
  - now apply StronglySorted_inv in H as [_ H].
  - apply StronglySorted_inv in H as [H _]. now apply IH.
Qed.

Section MoreClassifier.

Variable lower : string -> string.
Variable repr : string -> string.

(** For an absent file, and for a file that holds a JSON object whose
    values are lists of strings, [get_list_chats] and [show_all_lists]
    return a text: the lookup [lists[matched_key]] never raises
    [KeyError].  When opening or parsing the file raises, both tools raise
    that exception right after the load, and the store is not read. *)
Theorem tools_return_for_a_mapping_of_string_lists
        (list_name : string) (w : World) :
  (chat_lists_json w = Absent \/ (exists lists, chat_lists_json w = Holds lists) ->
   (exists text, reply (get_list_chats lower repr list_name) w = Returns text)
   /\ (exists text, reply show_all_lists w = Returns text))
  /\ (forall e,
         chat_lists_json w = Unreadable e ->
         get_list_chats lower repr list_name w = (Raises e, [LoadChatLists])
         /\ show_all_lists w = (Raises e, [LoadChatLists])).
Proof.
  split.
  - intros [Hcfg | [lists Hcfg]].
    + split.
      * exists no_lists_defined. unfold reply.
        now rewrite (get_list_chats_no_lists lower repr list_name w (or_introl Hcfg)).
      * unfold reply, show_all_lists, bind, _load_chat_lists. rewrite Hcfg. cbn. eauto.
    + split.
      * destruct lists as [|p rest] eqn:El.
        { exists no_lists_defined. unfold reply.
          now rewrite (get_list_chats_no_lists lower repr list_name w (or_intror Hcfg)). }
        rewrite <- El in *.
        assert (lists <> []) as Hne by (rewrite El; discriminate).
        destruct (next_matching_key lower lists list_name) as [k|] eqn:Hk.
        -- destruct k as [|c k'] eqn:Ek.
           { eexists. unfold reply.
             now rewrite (get_list_chats_empty_label lower repr list_name w lists Hcfg Hk). }
           rewrite <- Ek in *.
           assert (k <> "") as Hk' by (rewrite Ek; discriminate).
           destruct (get_list_chats_matched lower repr list_name w lists k Hcfg Hk Hk')
             as [keywords [_ [_ Hrun]]].
           eexists. unfold reply. now rewrite Hrun.
        -- eexists. unfold reply.
           now rewrite (get_list_chats_unmatched lower repr list_name w lists Hcfg Hne Hk).
      * unfold reply, show_all_lists, bind, _load_chat_lists, get_path. rewrite Hcfg.
        destruct (dict_truthy lists); cbn; eauto.
  - intros e Hcfg. split.
    + apply get_list_chats_unreadable. exact Hcfg.
    + unfold show_all_lists, bind, _load_chat_lists. now rewrite Hcfg.
Qed.

(** The case of the keywords and of the names plays no role: keyword
    lists that agree after lowercasing select the same chats, and two
    names that agree after lowercasing match the same keyword lists. *)
Theorem classification_ignores_case
        (kws1 kws2 : list string) (rows : list Sqlite.row) (n1 n2 : string) :
  (List.map lower kws1 = List.map lower kws2 ->
   select_matches lower kws1 rows = select_matches lower kws2 rows)
  /\ (lower n1 = lower n2 ->
      any_keyword_in lower kws1 (Some n1) = any_keyword_in lower kws1 (Some n2)).
Proof.
  split.
  - intros H. unfold select_matches. apply filter_ext. intros r.
    unfold any_keyword_in.
    rewrite (existsb_map_lower lower
               (fun l => PyStr.str_in l (lower (PyStr.or_empty (Sqlite.row_name r))))).
    rewrite (existsb_map_lower lower
               (fun l => PyStr.str_in l (lower (PyStr.or_empty (Sqlite.row_name r))))
               kws2).
    now rewrite H.
  - intros H. unfold any_keyword_in. rewrite !or_empty_Some. now rewrite H.
Qed.

(** A list with the keywords of two lists selects exactly the chats that
    one of the two selects; so a further keyword never removes a chat. *)
Theorem keywords_add_up (kws1 kws2 : list string) (rows : list Sqlite.row)
        (r : Sqlite.row) :
  In r (select_matches lower (kws1 ++ kws2) rows)
  <-> In r (select_matches lower kws1 rows) \/ In r (select_matches lower kws2 rows).
Proof.
  rewrite !select_matches_In. split.
  - intros [Hr [kw [Hin Hocc]]]. apply in_app_iff in Hin as [Hin | Hin];
      [left | right]; eauto.
  - intros [[Hr [kw [Hin Hocc]]] | [Hr [kw [Hin Hocc]]]]; split; auto;
      exists kw; split; auto; apply in_app_iff; auto.
Qed.

(** A list without keywords selects no chat: the request is answered by
    the no-chats message, after one read of the store. *)
Theorem list_without_keywords_finds_no_chat
        (list_name : string) (w : World) (lists : chat_lists) (k : string)
        (db : Sqlite.database) :
  chat_lists_json w = Holds lists ->
  next_matching_key lower lists list_name = Some k ->
  PyStr.truthy k = true ->
  dict_getitem lists k = Returns [] ->
  messages_db w = inr db ->
  get_list_chats lower repr list_name w
  = (Returns ("No chats found for list '" +:+ k +:+ "' with keywords: []" +:+ PyStr.nl
                +:+ "Try editing chat_lists.json to adjust the keywords."),
     [LoadChatLists; StoreRead]).
Proof.
  intros Hcfg Hk Hne Hget Hdb. apply truthy_true_iff in Hne.
  destruct (get_list_chats_matched lower repr list_name w lists k Hcfg Hk Hne)
    as [keywords [Hget' [_ Hrun]]].
  assert (keywords = []) as -> by congruence.
  rewrite Hrun, Hdb.
  assert (select_matches lower [] (Sqlite.named_chats db) = []) as ->.
  { unfold select_matches. induction (Sqlite.named_chats db) as [|r l IH];
      [reflexivity | exact IH]. }
  reflexivity.
Qed.

(** A keyword whose lowercase form is the empty string occurs in every
    name: the list then holds all the chats the query fetches, in their
    order. *)
Theorem empty_keyword_selects_every_named_chat
        (list_name : string) (w : World) (lists : chat_lists) (k : string)
        (keywords : list string) (kw : string) (db : Sqlite.database) :
  chat_lists_json w = Holds lists ->
  next_matching_key lower lists list_name = Some k ->
  PyStr.truthy k = true ->
  dict_getitem lists k = Returns keywords ->
  In kw keywords -> lower kw = "" ->
  messages_db w = inr db ->
  select_matches lower keywords (Sqlite.named_chats db) = Sqlite.named_chats db
  /\ reply (get_list_chats lower repr list_name) w
     = Returns match Sqlite.named_chats db with
               | [] => no_chats_found repr k keywords
               | _ :: _ => listing k (Sqlite.named_chats db)
               end.
Proof.
  intros Hcfg Hk Hne Hget Hin Hlow Hdb. apply truthy_true_iff in Hne.
  assert (select_matches lower keywords (Sqlite.named_chats db) = Sqlite.named_chats db)
    as Hall.
  { unfold select_matches. apply filter_all. intros r _.
    unfold any_keyword_in. apply existsb_exists. exists kw. split; [exact Hin |].
    rewrite Hlow. apply str_in_empty_sub. }
  split; [exact Hall |].
  destruct (get_list_chats_matched lower repr list_name w lists k Hcfg Hk Hne)
    as [keywords' [Hget' [_ Hrun]]].
  assert (keywords' = keywords) as -> by congruence.
  unfold reply. rewrite Hrun, Hdb, Hall. cbn [fst].
  destruct (Sqlite.named_chats db); reflexivity.
Qed.

(** A label that equals an earlier label of the file up to case is never
    the one a request resolves to, whatever the request. *)
Theorem label_hidden_by_an_earlier_label
        (lists : chat_lists) (before mid after : list string) (k1 k2 : string)
        (list_name : string) :
  dict_keys lists = before ++ k1 :: mid ++ k2 :: after ->
  lower k1 = lower k2 ->
  ~ In k2 (before ++ k1 :: mid) ->
  next_matching_key lower lists list_name <> Some k2.
Proof.
  intros Hkeys Hlow Hnot Hfind. unfold next_matching_key in Hfind.
  rewrite Hkeys in Hfind.
  change (before ++ k1 :: mid ++ k2 :: after)
    with (before ++ (k1 :: mid) ++ k2 :: after) in Hfind.
  rewrite app_assoc, find_app_split in Hfind.
  destruct (List.find _ (before ++ k1 :: mid)) as [x|] eqn:E.
  - injection Hfind as ->. apply find_some in E as [E _]. now apply Hnot.
  - apply find_some in Hfind as [_ Hp]. apply String.eqb_eq in Hp.
    assert (In k1 (before ++ k1 :: mid)) as Hin1.
    { apply in_app_iff. right. now left. }
    pose proof (find_none _ _ E k1 Hin1) as Hk1. cbv beta in Hk1.
    apply String.eqb_neq in Hk1. congruence.
Qed.

(** In a listing, a chat without a last-message time is followed only by
    chats without one, and a chat with a numeric time is never followed by
    a chat with a text time. *)
Theorem chats_without_time_come_last
        (keywords : list string) (db : Sqlite.database)
        (l1 l2 : list Sqlite.row) (a b : Sqlite.row) :
  select_matches lower keywords (Sqlite.named_chats db) = l1 ++ a :: l2 ->
  In b l2 ->
  (Sqlite.row_time a = Sqlite.Null -> Sqlite.row_time b = Sqlite.Null)
  /\ (forall z, Sqlite.row_time a = Sqlite.Integer z ->
                forall s, Sqlite.row_time b <> Sqlite.Text s).
Proof.
  intros Hsplit Hb.
  assert (StronglySorted Sqlite.time_desc
            (select_matches lower keywords (Sqlite.named_chats db))) as Hs.
  { apply filter_sorted, order_by_time_desc_sorted. }
  rewrite Hsplit in Hs. apply sorted_after in Hs.
  rewrite List.Forall_forall in Hs. specialize (Hs b Hb).
  unfold Sqlite.time_desc in Hs. split.
  - intros Ha. rewrite Ha in Hs. destruct (Sqlite.row_time b); [reflexivity | |];
      discriminate Hs.
  - intros z Ha s Hbt. rewrite Ha, Hbt in Hs. discriminate Hs.
Qed.

(** A preview is never longer than the budget and the three dots. *)
Theorem preview_is_at_most_63_characters (last_msg : option string) :
  (PyStr.len (preview last_msg) <= 63)%nat.
Proof.
  destruct last_msg as [s|]; [| cbn; lia].
  destruct (Nat.le_gt_cases (PyStr.len s) preview_budget) as [H | H].
  - rewrite (preview_short s H). unfold preview_budget in H. lia.
  - rewrite (preview_long s H). unfold PyStr.len, PyStr.slice_to.
    rewrite length_append, substring_0_length.
    + unfold preview_budget. simpl. lia.
    + unfold PyStr.len in H. lia.
Qed.

(** The store is read exactly for a request that resolves to a non-empty
    label of a readable configuration: never without configuration, for
    an unknown name or for the empty label. *)
Theorem store_is_read_exactly_for_a_resolved_list (list_name : string) (w : World) :
  In StoreRead (trace (get_list_chats lower repr list_name) w)
  <-> exists lists k,
      chat_lists_json w = Holds lists
      /\ next_matching_key lower lists list_name = Some k
      /\ k <> "".
Proof.
  split.
  - intros Hin. destruct (chat_lists_json w) as [|lists|e] eqn:Hcfg.
    + unfold trace in Hin.
      rewrite (get_list_chats_no_lists lower repr list_name w (or_introl Hcfg)) in Hin.
      destruct Hin as [H | []]. discriminate H.
    + destruct (next_matching_key lower lists list_name) as [k|] eqn:Hk.
      * destruct k as [|c k'] eqn:Ek.
        { unfold trace in Hin.
          rewrite (get_list_chats_empty_label lower repr list_name w lists Hcfg Hk)
            in Hin.
          destruct Hin as [H | []]. discriminate H. }
        exists lists, (String c k'). split; [reflexivity |]. split; [exact Hk |].
        discriminate.
      * destruct lists as [|p rest].
        { unfold trace in Hin.
          rewrite (get_list_chats_no_lists lower repr list_name w (or_intror Hcfg)) in Hin.
          destruct Hin as [H | []]. discriminate H. }
        unfold trace in Hin.
        rewrite (get_list_chats_unmatched lower repr list_name w (p :: rest) Hcfg
                   ltac:(discriminate) Hk) in Hin.
        destruct Hin as [H | []]. discriminate H.
    + unfold trace in Hin.
      rewrite (get_list_chats_unreadable lower repr list_name w e Hcfg) in Hin.
      destruct Hin as [H | []]. discriminate H.
  - intros [lists [k [Hcfg [Hk Hne]]]].
    destruct (get_list_chats_matched lower repr list_name w lists k Hcfg Hk Hne)
      as [keywords [_ [_ Hrun]]].
    unfold trace. rewrite Hrun. cbn. auto.
Qed.

(** Two requests whose names are equal up to case get the same reply and
    make the same accesses, when the name resolves to a list. *)
Theorem requests_equal_up_to_case_get_the_same_reply
        (n1 n2 : string) (w : World) (lists : chat_lists) (k : string) :
  chat_lists_json w = Holds lists ->
  next_matching_key lower lists n1 = Some k ->
  PyStr.truthy k = true ->
  lower n1 = lower n2 ->
  get_list_chats lower repr n1 w = get_list_chats lower repr n2 w.
Proof.
  intros Hcfg Hk Hne Hlow. apply truthy_true_iff in Hne.
  assert (next_matching_key lower lists n2 = Some k) as Hk2.
  { now rewrite <- (next_matching_key_case lower lists n1 n2 Hlow). }
  destruct (get_list_chats_matched lower repr n1 w lists k Hcfg Hk Hne)
    as [kws1 [Hg1 [_ ->]]].
  destruct (get_list_chats_matched lower repr n2 w lists k Hcfg Hk2 Hne)
    as [kws2 [Hg2 [_ ->]]].
  assert (kws2 = kws1) as -> by congruence. reflexivity.
Qed.

Lemma NoDup_map_eq (l : list string) (x y : string) :
  List.NoDup (List.map lower l) -> In x l -> In y l -> lower x = lower y -> x = y.
Proof.
  induction l as [|a l IH]; simpl; [intros _ [] |].
  intros Hnd Hx Hy Heq. apply List.NoDup_cons_iff in Hnd as [Hnot Hnd].
  destruct Hx as [-> | Hx], Hy as [-> | Hy]; auto.
  - exfalso. apply Hnot. rewrite Heq. now apply in_map.
  - exfalso. apply Hnot. rewrite <- Heq. now apply in_map.
Qed.

(** When the labels of the configuration are distinct up to case, every
    non-empty label is found by a request for it, and the request uses the
    keywords bound to that label. *)
Theorem configured_list_is_found_by_its_label
        (w : World) (lists : chat_lists) (label : string) (keywords : list string) :
  chat_lists_json w = Holds lists ->
  List.NoDup (List.map lower (dict_keys lists)) ->
  In (label, keywords) lists ->
  PyStr.truthy label = true ->
  next_matching_key lower lists label = Some label
  /\ get_list_chats lower repr label w
     = (Returns match messages_db w with
                | inl e => database_error e
                | inr db =>
                    match select_matches lower keywords (Sqlite.named_chats db) with
                    | [] => no_chats_found repr label keywords
                    | m :: ms => listing label (m :: ms)
                    end
                end,
        [LoadChatLists; StoreRead]).
Proof.
  intros Hcfg Hnd Hin Hne. apply truthy_true_iff in Hne.
  assert (In label (dict_keys lists)) as Hkey.
  { unfold dict_keys. apply in_map_iff. exists (label, keywords). auto. }
  destruct (next_matching_key_first lower lists label label Hkey eq_refl)
    as [before [k [after [Hsplit [Hk [Hlow _]]]]]].
  assert (In k (dict_keys lists)) as Hkin.
  { rewrite Hsplit. apply in_app_iff. right. now left. }
  assert (k = label) as -> by (apply (NoDup_map_eq _ _ _ Hnd Hkin Hkey Hlow)).
  split; [exact Hk |].
  destruct (get_list_chats_matched lower repr label w lists label Hcfg Hk Hne)
    as [keywords' [Hget [_ Hrun]]].
  assert (dict_getitem lists label = Returns keywords) as Hget'.
  { apply dict_getitem_wf; [| exact Hin].
    unfold dict_wf. now apply NoDup_map_inv in Hnd. }
  assert (keywords' = keywords) as -> by congruence.
  exact Hrun.
Qed.

End MoreClassifier.

(** ** Rows per chat, and the text of [show_all_lists] *)

Lemma perm_filter_length (f : Sqlite.row -> bool) (l l' : list Sqlite.row) :
  Permutation l l' ->
  List.length (List.filter f l) = List.length (List.filter f l').
Proof.
  induction 1 as [|x l l' _ IH|x y l|l l' l'' _ IH1 _ IH2]; simpl.
  - reflexivity.
  - destruct (f x); simpl; now rewrite IH.
  - destruct (f x), (f y); reflexivity.
  - now rewrite IH1.
Qed.

Lemma filter_map_length (A B : Type) (g : A -> B) (f : B -> bool) (l : list A) :
  List.length (List.filter f (List.map g l))
  = List.length (List.filter (fun x => f (g x)) l).
Proof.
  induction l as [|x l IH]; simpl; [reflexivity |].
  destruct (f (g x)); simpl; now rewrite IH.
Qed.

Lemma filter_filter_length (A : Type) (f g : A -> bool) (l : list A) :
  List.length (List.filter f (List.filter g l))
  = List.length (List.filter (fun x => g x && f x) l).
Proof.
  induction l as [|x l IH]; simpl; [reflexivity |].
  destruct (g x); simpl; [destruct (f x); simpl; now rewrite IH | exact IH].
Qed.

(** The rows the join makes for one chat. *)
Lemma joined_rows_of_chat (db : Sqlite.database) (c : Sqlite.chat)
      (f : Sqlite.chat * option Sqlite.message -> bool) (b : bool) :
  (forall m, f (c, m) = b) ->
  List.length
    (List.filter f
       match List.filter (Sqlite.on_last_message c) (Sqlite.messages db) with
       | [] => [(c, None)]
       | m :: ms => List.map (fun m => (c, Some m)) (m :: ms)
       end)
  = if b
    then Nat.max 1 (List.length
                      (List.filter (Sqlite.on_last_message c) (Sqlite.messages db)))
    else 0%nat.
Proof.
  intros Hf.
  destruct (List.filter (Sqlite.on_last_message c) (Sqlite.messages db)) as [|m ms].
  - simpl. rewrite Hf. now destruct b.
  - rewrite filter_map_length.
    assert (forall l : list Sqlite.message,
               List.length (List.filter (fun x => f (c, Some x)) l)
               = if b then List.length l else 0%nat) as Hall.
    { induction l as [|x l IH]; simpl; [now destruct b |].
      rewrite Hf. destruct b; simpl; now rewrite IH. }
    rewrite Hall. destruct b; [| reflexivity]. simpl. lia.
Qed.

Lemma left_join_count (db : Sqlite.database) (jid : string) (chats : list Sqlite.chat) :
  let q := fun cm : Sqlite.chat * option Sqlite.message =>
             Sqlite.where_named cm && String.eqb (Sqlite.c_jid (fst cm)) jid in
  let rows := fun c =>
                match List.filter (Sqlite.on_last_message c) (Sqlite.messages db) with
                | [] => [(c, None)]
                | ms => List.map (fun m => (c, Some m)) ms
                end in
  (~ In jid (List.map Sqlite.c_jid chats) ->
   List.length (List.filter q (List.flat_map rows chats)) = 0%nat)
  /\ (forall c,
         List.NoDup (List.map Sqlite.c_jid chats) -> In c chats ->
         Sqlite.c_jid c = jid -> Sqlite.where_named (c, None) = true ->
         List.length (List.filter q (List.flat_map rows chats))
         = Nat.max 1 (List.length
                        (List.filter (Sqlite.on_last_message c) (Sqlite.messages db)))).
Proof.
  intros q rows.
  assert (forall c,
             List.length (List.filter q (rows c))
             = if Sqlite.where_named (c, None) && String.eqb (Sqlite.c_jid c) jid
               then Nat.max 1 (List.length
                                 (List.filter (Sqlite.on_last_message c)
                                    (Sqlite.messages db)))
               else 0%nat) as Hone.
  { intros c. unfold rows.
    rewrite <- (joined_rows_of_chat db c q
                  (Sqlite.where_named (c, None) && String.eqb (Sqlite.c_jid c) jid)).
    - destruct (List.filter (Sqlite.on_last_message c) (Sqlite.messages db));
        reflexivity.
    - intros m. reflexivity. }
  assert (forall cs,
             ~ In jid (List.map Sqlite.c_jid cs) ->
             List.length (List.filter q (List.flat_map rows cs)) = 0%nat) as Hnone.
  { induction cs as [|c' cs IH]; simpl; [reflexivity |].
    intros Hnot. rewrite List.filter_app, List.length_app, Hone.
    destruct (String.eqb_spec (Sqlite.c_jid c') jid) as [E | E]; [tauto |].
    rewrite andb_false_r. simpl. apply IH. tauto. }
  split; [apply Hnone |].
  intros c Hnd Hin Hjid Hnamed.
  induction chats as [|c' cs IH]; [destruct Hin |].
  simpl in Hnd, Hin. apply List.NoDup_cons_iff in Hnd as [Hnot Hnd].
  cbn [List.flat_map]. rewrite List.filter_app, List.length_app, Hone.
  destruct Hin as [-> | Hin].
  - rewrite Hnamed, Hjid, String.eqb_refl. cbn [andb].
    rewrite (Hnone cs); [lia |]. now rewrite <- Hjid.
  - destruct (String.eqb_spec (Sqlite.c_jid c') jid) as [E | E].
    + exfalso. apply Hnot. rewrite E, <- Hjid. now apply in_map.
    + rewrite andb_false_r. simpl. now apply IH.
Qed.

(** A named chat gets one row per message that carries its last-message
    time, and one row when no message does: with two such messages the
    chat is fetched, and listed, twice. *)
Theorem named_chat_has_a_row_per_last_message
        (db : Sqlite.database) (c : Sqlite.chat) (n : string) :
  List.NoDup (List.map Sqlite.c_jid (Sqlite.chats db)) ->
  In c (Sqlite.chats db) ->
  Sqlite.c_name c = Some n -> PyStr.truthy n = true ->
  List.length
    (List.filter (fun r => String.eqb (row_jid r) (Sqlite.c_jid c))
       (Sqlite.named_chats db))
  = Nat.max 1
      (List.length (List.filter (Sqlite.on_last_message c) (Sqlite.messages db))).
Proof.
  intros Hnd Hin Hn Ht. unfold Sqlite.named_chats.
  rewrite <- (perm_filter_length _ _ _ (order_by_time_desc_perm _)).
  rewrite filter_map_length, filter_filter_length.
  destruct (left_join_count db (Sqlite.c_jid c) (Sqlite.chats db)) as [_ H].
  rewrite <- (H c Hnd Hin eq_refl).
  - unfold Sqlite.left_join. f_equal. apply filter_ext. intros [c' m]. reflexivity.
  - unfold Sqlite.where_named. cbn [fst]. rewrite Hn.
    destruct n; [discriminate Ht | reflexivity].
Qed.

Lemma occurs_in_trans (a b c : string) :
  PyStr.occurs_in a b -> PyStr.occurs_in b c -> PyStr.occurs_in a c.
Proof.
  intros [p1 [q1 ->]] [p2 [q2 ->]].
  exists (p2 +:+ p1), (q1 +:+ q2). now rewrite !append_assoc.
Qed.

(** With a non-empty configuration, [show_all_lists] shows one line per
    list, with the label and its keywords joined by [", "], so every label
    and every keyword occurs in the text, and it ends with the path of the
    file; it reads the configuration once and nothing else. *)
Theorem show_all_lists_shows_every_list (w : World) (lists : chat_lists) :
  chat_lists_json w = Holds lists -> lists <> [] ->
  exists text,
    show_all_lists w = (Returns text, [LoadChatLists])
    /\ (forall label keywords,
           In (label, keywords) lists ->
           PyStr.occurs_in
             (bullet_mark +:+ " " +:+ label +:+ ": " +:+ PyStr.join ", " keywords) text
           /\ PyStr.occurs_in label text
           /\ forall kw, In kw keywords -> PyStr.occurs_in kw text)
    /\ PyStr.occurs_in ("Edit: " +:+ CHAT_LISTS_PATH w) text.
Proof.
  intros Hcfg Hne.
  unfold show_all_lists, bind, _load_chat_lists, get_path, ret. rewrite Hcfg.
  destruct lists as [|p rest] eqn:El; [congruence |]. rewrite <- El in *.
  assert (dict_truthy lists = true) as -> by (rewrite El; reflexivity).
  cbn [negb]. eexists. split; [reflexivity |].
  set (line := fun '((list_name, keywords) : string * list string) =>
                 bullet_mark +:+ " " +:+ list_name +:+ ": "
                   +:+ PyStr.join ", " keywords).
  set (lines := [clipboard_mark +:+ " Your Custom Chat Lists" +:+ PyStr.nl]
                ++ List.map line lists
                ++ [PyStr.nl +:+ "Edit: " +:+ CHAT_LISTS_PATH w]).
  split.
  - intros label keywords Hin.
    assert (PyStr.occurs_in (line (label, keywords)) (PyStr.join PyStr.nl lines))
      as Hline.
    { apply join_In_occurs. unfold lines. apply in_app_iff. right.
      apply in_app_iff. left. now apply in_map. }
    split; [exact Hline |]. split.
    + eapply occurs_in_trans; [| exact Hline]. cbn [line].
      do 2 apply occurs_in_append_r.
      exists "", (": " +:+ PyStr.join ", " keywords). reflexivity.
    + intros kw Hkw. eapply occurs_in_trans; [| exact Hline]. cbn [line].
      do 4 apply occurs_in_append_r. now apply join_In_occurs.
  - eapply occurs_in_trans; [| apply (join_In_occurs PyStr.nl
                                         (PyStr.nl +:+ "Edit: " +:+ CHAT_LISTS_PATH w))].
    + apply occurs_in_append_r. apply occurs_in_refl.
    + unfold lines. apply in_app_iff. right. apply in_app_iff. right. now left.
Qed.

Lemma not_the_no_lists_message (s : string) :
  String.prefix "No l" s = false -> Returns s <> Returns no_lists_defined.
Proof.
  intros H E. assert (s = no_lists_defined) as -> by congruence.
  vm_compute in H. discriminate H.
Qed.

(** The no-lists message is the reply of [get_list_chats], and of
    [show_all_lists], exactly when the configuration file is absent or
    holds no list. *)
Theorem no_lists_message_means_no_configuration
        (lower repr : string -> string) (list_name : string) (w : World) :
  (reply (get_list_chats lower repr list_name) w = Returns no_lists_defined
   <-> chat_lists_json w = Absent \/ chat_lists_json w = Holds [])
  /\ (reply show_all_lists w = Returns no_lists_defined
      <-> chat_lists_json w = Absent \/ chat_lists_json w = Holds []).
Proof.
  split; split.
  - intros H. destruct (chat_lists_json w) as [|lists|e] eqn:Hcfg; [now left | |].
    + destruct lists as [|p rest]; [now right |]. exfalso.
      destruct (next_matching_key lower (p :: rest) list_name) as [k|] eqn:Hk.
      * destruct k as [|c k'].
        { unfold reply in H.
          rewrite (get_list_chats_empty_label lower repr list_name w _ Hcfg Hk) in H.
          revert H. now apply not_the_no_lists_message. }
        destruct (get_list_chats_matched lower repr list_name w _ (String c k')
                    Hcfg Hk ltac:(discriminate)) as [keywords [_ [_ Hrun]]].
        unfold reply in H. rewrite Hrun in H. cbn [fst] in H.
        revert H. apply not_the_no_lists_message.
        destruct (messages_db w) as [e|db]; [reflexivity |].
        destruct (select_matches lower keywords (Sqlite.named_chats db));
          reflexivity.
      * unfold reply in H.
        rewrite (get_list_chats_unmatched lower repr list_name w _ Hcfg
                   ltac:(discriminate) Hk) in H.
        revert H. now apply not_the_no_lists_message.
    + unfold reply in H.
      rewrite (get_list_chats_unreadable lower repr list_name w e Hcfg) in H.
      discriminate H.
  - intros H. unfold reply.
    now rewrite (get_list_chats_no_lists lower repr list_name w H).
  - intros H. unfold reply, show_all_lists, bind, _load_chat_lists, get_path, ret in H.
    destruct (chat_lists_json w) as [|lists|e] eqn:Hcfg; [now left | |].
    + destruct lists as [|p rest]; [now right |]. exfalso.
      cbn in H. revert H. now apply not_the_no_lists_message.
    + discriminate H.
  - intros [H | H]; unfold reply, show_all_lists, bind, _load_chat_lists;
      rewrite H; reflexivity.
Qed.

(** ** The further properties on the sample data *)

Lemma tools_return_for_a_mapping_of_string_lists_witness :
  (exists text, reply (Sample.get "trip") Sample.w_trip = Returns text)
  /\ Sample.get "trip" ExtraSample.w_unreadable
     = (Raises (JSONDecodeError "Expecting value: line 1 column 1 (char 0)"),
        [LoadChatLists]).
Proof.
  split.
  - apply (proj1 (tools_return_for_a_mapping_of_string_lists
                    PyStr.ascii_lower PyStr.plain_repr "trip" Sample.w_trip)).
    right. exists Sample.trip_lists. reflexivity.
  - apply (proj2 (tools_return_for_a_mapping_of_string_lists
                    PyStr.ascii_lower PyStr.plain_repr "trip" ExtraSample.w_unreadable)).
    reflexivity.
Defined.

Lemma classification_ignores_case_witness :
  select_matches PyStr.ascii_lower ["Trip"; "Vacation"] (Sqlite.named_chats Sample.db)
  = select_matches PyStr.ascii_lower ["TRIP"; "vacation"] (Sqlite.named_chats Sample.db)
  /\ any_keyword_in PyStr.ascii_lower ["Trip"; "Vacation"] (Some "Girls Trip 2024")
     = any_keyword_in PyStr.ascii_lower ["Trip"; "Vacation"] (Some "GIRLS TRIP 2024").
Proof.
  destruct (classification_ignores_case PyStr.ascii_lower
              ["Trip"; "Vacation"] ["TRIP"; "vacation"]
              (Sqlite.named_chats Sample.db) "Girls Trip 2024" "GIRLS TRIP 2024")
    as [H1 H2].
  split; [apply H1 | apply H2]; reflexivity.
Defined.

Lemma list_without_keywords_finds_no_chat_witness :
  ExtraSample.quiet_lists = [("Quiet", [])]
  /\ get_list_chats PyStr.ascii_lower PyStr.plain_repr "quiet" ExtraSample.w_quiet
     = (Returns ("No chats found for list 'Quiet' with keywords: []" +:+ PyStr.nl
                   +:+ "Try editing chat_lists.json to adjust the keywords."),
        [LoadChatLists; StoreRead]).
Proof.
  split; [reflexivity |].
  exact (list_without_keywords_finds_no_chat PyStr.ascii_lower PyStr.plain_repr
           "quiet" ExtraSample.w_quiet ExtraSample.quiet_lists "Quiet" Sample.db
           eq_refl eq_refl eq_refl eq_refl eq_refl).
Defined.

Lemma empty_keyword_selects_every_named_chat_witness :
  In "" [""] /\ PyStr.ascii_lower "" = ""
  /\ select_matches PyStr.ascii_lower [""] (Sqlite.named_chats Sample.db)
     = Sqlite.named_chats Sample.db
  /\ List.length (Sqlite.named_chats Sample.db) = 5%nat.
Proof.
  split; [now left |]. split; [reflexivity |].
  split; [| reflexivity].
  exact (proj1 (empty_keyword_selects_every_named_chat
                  PyStr.ascii_lower PyStr.plain_repr "all" Sample.w_everything
                  Sample.everything_lists "All" [""] "" Sample.db
                  eq_refl eq_refl eq_refl eq_refl (or_introl eq_refl) eq_refl eq_refl)).
Defined.

Lemma label_hidden_by_an_earlier_label_witness :
  dict_keys ExtraSample.shadow_lists = [] ++ "Trip" :: [] ++ "TRIP" :: []
  /\ PyStr.ascii_lower "Trip" = PyStr.ascii_lower "TRIP"
  /\ next_matching_key PyStr.ascii_lower ExtraSample.shadow_lists "TRIP" <> Some "TRIP"
  /\ next_matching_key PyStr.ascii_lower ExtraSample.shadow_lists "TRIP" = Some "Trip".
Proof.
  split; [reflexivity |]. split; [reflexivity |]. split; [| reflexivity].
  apply (label_hidden_by_an_earlier_label PyStr.ascii_lower ExtraSample.shadow_lists
           [] [] [] "Trip" "TRIP" "TRIP"); [reflexivity | reflexivity |].
  intros [H | []]. discriminate H.
Defined.

Lemma chats_without_time_come_last_witness :
  select_matches PyStr.ascii_lower ["trip"; "book"]
    (Sqlite.named_chats ExtraSample.db_untimed)
  = [ExtraSample.girls_trip_silent_row] ++ Sample.book_club_row
      :: [ExtraSample.trip_archive_row]
  /\ Sqlite.row_time Sample.book_club_row = Sqlite.Null
  /\ Sqlite.row_time ExtraSample.trip_archive_row = Sqlite.Null.
Proof.
  split; [reflexivity |]. split; [reflexivity |].
  apply (proj1 (chats_without_time_come_last PyStr.ascii_lower ["trip"; "book"]
                  ExtraSample.db_untimed [ExtraSample.girls_trip_silent_row]
                  [ExtraSample.trip_archive_row] Sample.book_club_row
                  ExtraSample.trip_archive_row eq_refl (or_introl eq_refl))).
  reflexivity.
Defined.

Lemma named_chat_has_a_row_per_last_message_witness :
  List.length
    (List.filter (Sqlite.on_last_message Sample.girls_trip)
       (Sqlite.messages ExtraSample.db_twins)) = 2%nat
  /\ List.length
       (List.filter (fun r => String.eqb (row_jid r) "120363000000000001@g.us")
          (Sqlite.named_chats ExtraSample.db_twins)) = 2%nat.
Proof.
  split; [reflexivity |].
  refine (named_chat_has_a_row_per_last_message ExtraSample.db_twins
            Sample.girls_trip "Girls Trip 2024" _ _ eq_refl eq_refl).
  - vm_compute. repeat constructor; simpl; intuition discriminate.
  - now left.
Defined.

Lemma show_all_lists_shows_every_list_witness :
  chat_lists_json Sample.w_trip = Holds Sample.trip_lists
  /\ exists text,
      show_all_lists Sample.w_trip = (Returns text, [LoadChatLists])
      /\ PyStr.occurs_in "vacation" text
      /\ PyStr.occurs_in "Edit: /srv/whatsapp-mcp-server/chat_lists.json" text.
Proof.
  split; [reflexivity |].
  destruct (show_all_lists_shows_every_list Sample.w_trip Sample.trip_lists eq_refl
              ltac:(discriminate)) as [text [Hrun [Hlists Hpath]]].
  exists text. split; [exact Hrun |]. split; [| exact Hpath].
  destruct (Hlists "Trip" ["trip"; "vacation"] (or_introl eq_refl)) as [_ [_ Hkw]].
  apply Hkw. right. now left.
Defined.

Lemma requests_equal_up_to_case_get_the_same_reply_witness :
  PyStr.ascii_lower "trip" = PyStr.ascii_lower "TRIP"
  /\ Sample.get "trip" Sample.w_trip = Sample.get "TRIP" Sample.w_trip.
Proof.
  split; [reflexivity |].
  exact (requests_equal_up_to_case_get_the_same_reply
           PyStr.ascii_lower PyStr.plain_repr "trip" "TRIP" Sample.w_trip
           Sample.trip_lists "Trip" eq_refl eq_refl eq_refl eq_refl).
Defined.

Lemma configured_list_is_found_by_its_label_witness :
  In ("Family", ["mom"; "dad"]) Sample.trip_lists
  /\ next_matching_key PyStr.ascii_lower Sample.trip_lists "Family" = Some "Family"
  /\ Sample.get "Family" Sample.w_trip
     = (Returns (listing "Family" [Sample.mom_row; Sample.dads_vacation_row]),
        [LoadChatLists; StoreRead]).
Proof.
  assert (In ("Family", ["mom"; "dad"]) Sample.trip_lists) as Hin
      by (right; now left).
  assert (List.NoDup (List.map PyStr.ascii_lower (dict_keys Sample.trip_lists)))
    as Hnd.
  { vm_compute. repeat constructor; simpl; intuition discriminate. }
  split; [exact Hin |].
  destruct (configured_list_is_found_by_its_label
              PyStr.ascii_lower PyStr.plain_repr Sample.w_trip Sample.trip_lists
              "Family" ["mom"; "dad"] eq_refl Hnd Hin eq_refl) as [H1 H2].
  split; [exact H1 |]. unfold Sample.get. rewrite H2. reflexivity.
Defined.
